(** * QA-Playwright: page objects over a browser driver

    A shallow embedding of the page-object layer (src/pages), the helper
    functions (src/utils/helpers.py) and the settings (src/config/settings.py).

    Conventions of the embedding:
    - a Python [str] is a [string] whose characters are the code points
      U+0000..U+00FF; text outside Latin-1 is not covered;
    - a Python [int] is a [Z], a [len] or an element count is a [nat];
    - a raised exception is an [Err] result carrying the exception class
      and its message;
    - the Playwright page is a state of an abstract type: actions (goto,
      click, ...) are state transformers that may raise, queries
      (text_content, count, ...) read the state and may raise;
    - [float] values and their arithmetic are an interface ([PyFloat]);
    - a [while] loop is a function with fuel, [None] when the fuel runs out;
    - logging calls have no effect on any result and are left out.

    [Sim] is a small driver and a small [float] to run the definitions on;
    [Spec] holds the specification's wording where a property compares the
    code with it. *)

From Stdlib Require Import ZArith Ascii String List Lia Bool Sorted Permutation.
From Stdlib Require OrderedTypeEx.
From stdpp Require Import base option strings gmap sorting.
Import ListNotations.

Local Open Scope string_scope.
Local Open Scope list_scope.

(** ** Exceptions and results *)

Inductive exn_class : Type :=
  | ValueError
  | IndexError
  | AssertionError
  | TimeoutError      (* playwright.sync_api.TimeoutError *)
  | PlaywrightError.  (* playwright.sync_api.Error, other than a timeout *)

Record exn : Type := Exn { exn_kind : exn_class; exn_msg : string }.

Inductive result (A : Type) : Type :=
  | Ok (a : A)
  | Err (e : exn).
Arguments Ok {A} a.
Arguments Err {A} e.

Definition raises {A : Type} (k : exn_class) (r : result A) : Prop :=
  exists msg, r = Err (Exn k msg).

Definition rbind {A B : Type} (r : result A) (f : A -> result B) : result B :=
  match r with
  | Ok a => f a
  | Err e => Err e
  end.

Fixpoint rmap_list {A B : Type} (f : A -> result B) (l : list A)
  : result (list B) :=
  match l with
  | [] => Ok []
  | a :: l' =>
      rbind (f a) (fun b => rbind (rmap_list f l') (fun bs => Ok (b :: bs)))
  end.

(** ** Python string primitives (Latin-1 range) *)

Module PyStr.

Definition code (c : ascii) : nat := nat_of_ascii c.

Definition is_digit (c : ascii) : bool :=
  (48 <=? code c)%nat && (code c <=? 57)%nat.

(** [str.lower] on one code point below U+0100: A..Z and the capital
    letters U+00C0..U+00DE (but not the multiplication sign U+00D7) move
    up by 32. *)
Definition lower_char (c : ascii) : ascii :=
  let n := code c in
  if ((65 <=? n) && (n <=? 90))%nat
     || ((192 <=? n) && (n <=? 222) && negb (n =? 215))%nat
  then ascii_of_nat (n + 32)
  else c.

Fixpoint lower (s : string) : string :=
  match s with
  | EmptyString => EmptyString
  | String c s' => String (lower_char c) (lower s')
  end.

(** [s.replace(old, new)] for a non-empty [old]: occurrences are taken
    left to right and do not overlap; [skip] counts the characters of an
    occurrence still to be dropped. *)
Fixpoint replace_from (old new : string) (skip : nat) (s : string) : string :=
  match s with
  | EmptyString => EmptyString
  | String c s' =>
      match skip with
      | S k => replace_from old new k s'
      | O =>
          if String.prefix old s
          then new +:+ replace_from old new (String.length old - 1) s'
          else String c (replace_from old new 0 s')
      end
  end.

(** With an empty [old], [new] is put before every character and at the
    end. *)
Fixpoint intersperse (new : string) (s : string) : string :=
  match s with
  | EmptyString => new
  | String c s' => new +:+ String c (intersperse new s')
  end.

Definition replace (old new s : string) : string :=
  match old with
  | EmptyString => intersperse new s
  | _ => replace_from old new 0 s
  end.

(** Characters that [str.strip] and [int] treat as white space. *)
Definition is_space (c : ascii) : bool :=
  let n := code c in
  ((9 <=? n) && (n <=? 13) || (28 <=? n) && (n <=? 32)
   || (n =? 133) || (n =? 160))%nat.

Fixpoint lstrip (s : string) : string :=
  match s with
  | EmptyString => EmptyString
  | String c s' => if is_space c then lstrip s' else s
  end.

Fixpoint rstrip (s : string) : string :=
  match s with
  | EmptyString => EmptyString
  | String c s' =>
      match rstrip s' with
      | EmptyString => if is_space c then EmptyString else String c EmptyString
      | r => String c r
      end
  end.

Definition strip (s : string) : string := rstrip (lstrip s).

Definition digit_val (c : ascii) : Z := Z.of_nat (code c - 48).

(** [str(n)] for an [int]. *)
Fixpoint digits_of_pos_fuel (fuel : nat) (n : Z) (acc : string) : string :=
  match fuel with
  | O => acc
  | S f =>
      let acc' := String (ascii_of_nat (48 + Z.to_nat (n mod 10))) acc in
      if (n <? 10)%Z then acc'
      else digits_of_pos_fuel f (n / 10)%Z acc'
  end.

Definition str_of_nonneg (n : Z) : string :=
  digits_of_pos_fuel (S (Z.to_nat (Z.log2 n))) n EmptyString.

Definition str_of_int (n : Z) : string :=
  if (n <? 0)%Z then String "-" (str_of_nonneg (- n)) else str_of_nonneg n.

(** [int(s)] in base 10: white space is stripped, one sign is allowed,
    then digits, where single underscores may separate digits.  The limit
    that recent interpreters put on the number of digits is left out. *)
Fixpoint int_digits (s : string) (acc : Z) (after_digit : bool) : option Z :=
  match s with
  | EmptyString => if after_digit then Some acc else None
  | String c s' =>
      if is_digit c then int_digits s' (10 * acc + digit_val c)%Z true
      else if (c =? "_")%char && after_digit then int_digits s' acc false
      else None
  end.

Definition int_unsigned (s : string) : option Z := int_digits s 0%Z false.

Definition int_parse (s : string) : option Z :=
  match strip s with
  | String "-" s' => option_map Z.opp (int_unsigned s')
  | String "+" s' => int_unsigned s'
  | s' => int_unsigned s'
  end.

Definition int (s : string) : result Z :=
  match int_parse s with
  | Some n => Ok n
  | None => Err (Exn ValueError "invalid literal for int() with base 10")
  end.

End PyStr.


(** [repr] of a [str] and of a list, as an f-string renders them. *)
Module PyRepr.

Definition hex_digit (n : nat) : ascii :=
  if (n <? 10)%nat then ascii_of_nat (48 + n) else ascii_of_nat (87 + n).

Definition is_printable (c : ascii) : bool :=
  let n := PyStr.code c in
  ((32 <=? n) && (n <=? 126) || (161 <=? n) && negb (n =? 173))%nat.

Fixpoint contains (c : ascii) (s : string) : bool :=
  match s with
  | EmptyString => false
  | String d s' => (c =? d)%char || contains c s'
  end.

Definition escape_char (quote c : ascii) : string :=
  if (c =? quote)%char || (c =? "\")%char then String "\" (String c EmptyString)
  else if (PyStr.code c =? 10)%nat then "\n"
  else if (PyStr.code c =? 13)%nat then "\r"
  else if (PyStr.code c =? 9)%nat then "\t"
  else if is_printable c then String c EmptyString
  else String "\" (String "x"
         (String (hex_digit (PyStr.code c / 16))
            (String (hex_digit (PyStr.code c mod 16)) EmptyString))).

Fixpoint escape (quote : ascii) (s : string) : string :=
  match s with
  | EmptyString => EmptyString
  | String c s' => escape_char quote c +:+ escape quote s'
  end.

Definition repr_str (s : string) : string :=
  let quote : ascii :=
    if contains "'" s && negb (contains "034" s) then "034"%char else "'"%char in
  String quote (escape quote s +:+ String quote EmptyString).

Definition repr_list {A : Type} (repr : A -> string) (l : list A) : string :=
  "[" +:+ String.concat ", " (map repr l) +:+ "]".

End PyRepr.

(** ** The [float] interface

    [float_of_decimal m k] is the double nearest to [m / 10^k], which is
    what [float()] returns for a numeral with digits [m] of which [k] stand
    after the point; [float_round x n] is [round(x, n)]; [float_str] is the
    text an f-string gives. *)
Class PyFloat : Type := {
  float : Type;
  float_of_decimal : Z -> nat -> float;
  float_add : float -> float -> float;
  float_round : float -> Z -> float;
  float_eqb : float -> float -> bool;
  float_ltb : float -> float -> bool;
  float_str : float -> string;
}.

(** What IEEE 754 gives for the order of the values that price parsing can
    produce (no NaN, no negative zero): [==] is equality and [<] is a strict
    total order. *)
Record FloatOrder (F : PyFloat) : Prop := {
  float_eqb_eq : forall x y : float, float_eqb x y = true <-> x = y;
  float_ltb_irrefl : forall x : float, float_ltb x x = false;
  float_ltb_trans : forall x y z : float,
      float_ltb x y = true -> float_ltb y z = true -> float_ltb x z = true;
  float_ltb_total : forall x y : float,
      float_ltb x y = true \/ x = y \/ float_ltb y x = true;
}.

(** ** Built-in [sorted] and list [==] *)

Section Sorted.
Context {A : Type} (ltb : A -> A -> bool).

(** [sorted] is stable and compares with [<] only.  The element that came
      first goes before the elements it is not greater than. *)
Fixpoint insert_sorted (x : A) (l : list A) : list A :=
    match l with
    | [] => [x]
    | y :: l' => if ltb y x then y :: insert_sorted x l' else x :: y :: l'
    end.

Fixpoint sorted (l : list A) : list A :=
    match l with
    | [] => []
    | x :: l' => insert_sorted x (sorted l')
    end.

(** [sorted(l, reverse=True)]: the list is reversed, sorted, and reversed
      again, which keeps equal elements in their original order. *)
Definition sorted_reverse (l : list A) : list A := rev (sorted (rev l)).

(** [x] does not come after [y]: the order [sorted] puts a list in. *)
Definition not_after (x y : A) : Prop := ltb y x = false.
End Sorted.

Fixpoint list_eqb {A : Type} (eqb : A -> A -> bool) (l1 l2 : list A) : bool :=
  match l1, l2 with
  | [], [] => true
  | x :: l1', y :: l2' => eqb x y && list_eqb eqb l1' l2'
  | _, _ => false
  end.

(** ** The browser driver

    Playwright is outside the repository; the page objects see it through
    the calls below.  A [Locator] is what [page.locator(selector)] returns,
    [Nth l i] is the [i]-th element [l.all()] lists. *)

Inductive Locator : Type :=
  | Css (selector : string)
  | Nth (l : Locator) (i : nat).

(** Actions change the page and may raise; the page after a raise is the
    one the browser is left with. *)
Definition M (Page A : Type) : Type := Page -> result A * Page.

Definition ret {Page A : Type} (a : A) : M Page A := fun p => (Ok a, p).

Definition bind {Page A B : Type} (m : M Page A) (f : A -> M Page B) : M Page B :=
  fun p =>
    match m p with
    | (Ok a, p') => f a p'
    | (Err e, p') => (Err e, p')
    end.

Definition raise {Page A : Type} (e : exn) : M Page A := fun p => (Err e, p).

(** A query reads the page and leaves it as it is. *)
Definition query {Page A : Type} (q : Page -> result A) : M Page A :=
  fun p => (q p, p).

Declare Scope page_scope.
Delimit Scope page_scope with page.
Notation "x <- m ;; k" := (bind m (fun x => k))
  (at level 100, m at next level, right associativity) : page_scope.
Notation "m ;;; k" := (bind m (fun _ => k))
  (at level 100, right associativity) : page_scope.

Class Driver (Page : Type) : Type := {
  (* page.goto(url) *)
  drv_goto : string -> M Page unit;
  (* page.wait_for_load_state(state, timeout=timeout) *)
  drv_wait_for_load_state : string -> Z -> M Page unit;
  (* locator.click() *)
  drv_click : Locator -> M Page unit;
  (* locator.select_option(value) *)
  drv_select_option : Locator -> string -> M Page unit;
  (* locator.text_content() *)
  drv_text_content : Locator -> Page -> result (option string);
  (* locator.get_attribute(name) *)
  drv_get_attribute : Locator -> string -> Page -> result (option string);
  (* locator.input_value() *)
  drv_input_value : Locator -> Page -> result string;
  (* locator.is_visible(), is_enabled(), is_checked() *)
  drv_is_visible : Locator -> Page -> result bool;
  drv_is_enabled : Locator -> Page -> result bool;
  drv_is_checked : Locator -> Page -> result bool;
  (* locator.count() *)
  drv_count : Locator -> Page -> result nat;
  (* expect(locator).to_be_hidden(), expect(locator).to_have_text(text) *)
  drv_expect_to_be_hidden : Locator -> Page -> result unit;
  drv_expect_to_have_text : Locator -> string -> Page -> result unit;
}.

(** [locator.all()]: one [nth] locator per element counted. *)
Definition locator_all `{Driver Page} (l : Locator) (p : Page) : result (list Locator) :=
  rbind (drv_count l p) (fun n => Ok (map (Nth l) (seq 0 n))).

(** [a or b] on an optional string: [None] and the empty string are falsy. *)
Definition py_or (a : option string) (b : string) : string :=
  match a with
  | Some (String c s) => String c s
  | _ => b
  end.

(** [l[i]] with Python's negative indices. *)
Definition py_index {A : Type} (l : list A) (i : Z) : result A :=
  let n := Z.of_nat (List.length l) in
  let j := if (i <? 0)%Z then (n + i)%Z else i in
  if ((0 <=? j) && (j <? n))%Z then
    match nth_error l (Z.to_nat j) with
    | Some a => Ok a
    | None => Err (Exn IndexError "list index out of range")
    end
  else Err (Exn IndexError "list index out of range").

(** The page after [n] runs of an action, whatever their outcomes. *)
Fixpoint page_after {Page A : Type} (n : nat) (a : M Page A) (p : Page) : Page :=
  match n with
  | O => p
  | S n' => page_after n' a (snd (a p))
  end.

(** [assert cond, msg] *)
Definition py_assert (cond : bool) (msg : string) : result unit :=
  if cond then Ok tt else Err (Exn AssertionError msg).

(** ** src/utils/helpers.py *)

Module helpers.

(** The character class [[\d.]]. *)
Definition in_class (c : ascii) : bool := PyStr.is_digit c || (c =? ".")%char.

Fixpoint take_run (s : string) : string :=
  match s with
  | EmptyString => EmptyString
  | String c s' => if in_class c then String c (take_run s') else EmptyString
  end.

(** [re.search(r"[\d.]+", s)]: the leftmost match, as long as it can be;
    [None] when nothing matches. *)
Fixpoint re_search (s : string) : option string :=
  match s with
  | EmptyString => None
  | String c s' =>
      if in_class c then Some (String c (take_run s')) else re_search s'
  end.

Fixpoint all_digits (s : string) : bool :=
  match s with
  | EmptyString => true
  | String c s' => PyStr.is_digit c && all_digits s'
  end.

Fixpoint digits_value (s : string) (acc : Z) : Z :=
  match s with
  | EmptyString => acc
  | String c s' => digits_value s' (10 * acc + PyStr.digit_val c)%Z
  end.

(** Splits at the first point. *)
Fixpoint split_point (s : string) : string * option string :=
  match s with
  | EmptyString => (EmptyString, None)
  | String c s' =>
      if (c =? ".")%char then (EmptyString, Some s')
      else let '(a, b) := split_point s' in (String c a, b)
  end.

(** [float(s)] for a string of digits and points, the only strings that
    [extract_price] passes to it: digits, at most one point, at least one
    digit.  The result is the numeral's digits and the number of them
    after the point. *)
Definition float_parse (s : string) : option (Z * nat) :=
  let '(ip, fp) := split_point s in
  let fp := default EmptyString fp in
  if all_digits ip && all_digits fp
     && negb ((String.length ip + String.length fp =? 0)%nat)
  then Some (digits_value (ip +:+ fp) 0%Z, String.length fp)
  else None.

Definition py_float {F : PyFloat} (s : string) : result float :=
  match float_parse s with
  | Some (m, k) => Ok (float_of_decimal m k)
  | None =>
      Err (Exn ValueError ("could not convert string to float: " +:+ PyRepr.repr_str s))
  end.

Definition extract_price {F : PyFloat} (price_string : string) : result float :=
  match re_search price_string with
  | Some m => py_float m
  | None =>
      Err (Exn ValueError ("Could not extract price from: " +:+ price_string))
  end.

(** [wait_for_page_load(page, timeout)] *)
Definition wait_for_page_load `{Driver Page} (timeout : Z) : M Page unit :=
  drv_wait_for_load_state "networkidle" timeout.

(** [get_element_count(page, selector)] *)
Definition get_element_count `{Driver Page} (selector : string) (p : Page)
  : result nat :=
  drv_count (Css selector) p.

End helpers.

(** ** src/config/settings.py *)

Module settings.

(** [os.getenv(key, default)] on the process environment. *)
Definition getenv (env : gmap string string) (key default_value : string) : string :=
  default default_value (env !! key).

Record Settings : Type := {
  BASE_URL : string;
  STANDARD_USER : string;
  LOCKED_OUT_USER : string;
  PROBLEM_USER : string;
  PERFORMANCE_USER : string;
  ERROR_USER : string;
  VISUAL_USER : string;
  PASSWORD : string;
  HEADLESS : bool;
  SLOW_MO : Z;
  TIMEOUT : Z;
  SCREENSHOT_ON_FAILURE : bool;
  VIDEO_ON_FAILURE : bool;
  }.

Definition flag (env : gmap string string) (key default_value : string) : bool :=
  String.eqb (PyStr.lower (getenv env key default_value)) "true".

(** The class body of [Settings], evaluated once at import; the two
    [int(...)] calls can raise. *)
Definition load (env : gmap string string) : result Settings :=
  rbind (PyStr.int (getenv env "SLOW_MO" "100")) (fun slow_mo =>
  rbind (PyStr.int (getenv env "TIMEOUT" "30000")) (fun timeout =>
  Ok {| BASE_URL := getenv env "BASE_URL" "https://www.saucedemo.com";
        STANDARD_USER := getenv env "STANDARD_USER" "standard_user";
        LOCKED_OUT_USER := getenv env "LOCKED_OUT_USER" "locked_out_user";
        PROBLEM_USER := getenv env "PROBLEM_USER" "problem_user";
        PERFORMANCE_USER := getenv env "PERFORMANCE_USER" "performance_glitch_user";
        ERROR_USER := getenv env "ERROR_USER" "error_user";
        VISUAL_USER := getenv env "VISUAL_USER" "visual_user";
        PASSWORD := getenv env "PASSWORD" "secret_sauce";
        HEADLESS := flag env "HEADLESS" "false";
        SLOW_MO := slow_mo;
        TIMEOUT := timeout;
        SCREENSHOT_ON_FAILURE := flag env "SCREENSHOT_ON_FAILURE" "true";
        VIDEO_ON_FAILURE := flag env "VIDEO_ON_FAILURE" "true" |})).

(** The environment variables of the "Test credentials" block that name
    a user, in the order of the class body, and the attributes they set. *)
Definition user_variables : list string :=
  ["STANDARD_USER"; "LOCKED_OUT_USER"; "PROBLEM_USER"; "PERFORMANCE_USER";
   "ERROR_USER"; "VISUAL_USER"].

Definition user_identifiers (st : Settings) : list string :=
  [STANDARD_USER st; LOCKED_OUT_USER st; PROBLEM_USER st; PERFORMANCE_USER st;
   ERROR_USER st; VISUAL_USER st].

End settings.

(** ** src/pages/base_page.py *)

(** A page object: the attributes [__init__] sets besides the page itself,
    which is the state the methods run on. *)
Record PageObject : Type := {
  base_url : string;
  timeout : Z;
}.

Module BasePage.
Local Open Scope page_scope.

Definition init (st : settings.Settings) : PageObject :=
  {| base_url := settings.BASE_URL st; timeout := settings.TIMEOUT st |}.

Section Methods.
Context `{Driver Page}.

Definition wait_for_page_load (self : PageObject) : M Page unit :=
  helpers.wait_for_page_load (timeout self).

(** The URL [navigate] composes: an empty [path] is falsy. *)
Definition navigate_url (self : PageObject) (path : string) : string :=
  match path with
  | EmptyString => base_url self
  | _ => base_url self +:+ "/" +:+ path
  end.

Definition navigate (self : PageObject) (path : string) : M Page unit :=
  let url := navigate_url self path in
  drv_goto url ;;;
  wait_for_page_load self.

Definition click (self : PageObject) (selector : string) : M Page unit :=
  drv_click (Css selector).

Definition select_option (self : PageObject) (selector value : string)
  : M Page unit :=
  drv_select_option (Css selector) value.

Definition get_text (self : PageObject) (selector : string) (p : Page)
  : result string :=
  rbind (drv_text_content (Css selector) p) (fun t => Ok (py_or t "")).

Definition get_attribute (self : PageObject) (selector attribute : string)
    (p : Page) : result (option string) :=
  drv_get_attribute (Css selector) attribute p.

Definition get_input_value (self : PageObject) (selector : string) (p : Page)
  : result string :=
  drv_input_value (Css selector) p.

Definition is_visible (self : PageObject) (selector : string) (p : Page)
  : result bool :=
  drv_is_visible (Css selector) p.

Definition is_enabled (self : PageObject) (selector : string) (p : Page)
  : result bool :=
  drv_is_enabled (Css selector) p.

Definition is_checked (self : PageObject) (selector : string) (p : Page)
  : result bool :=
  drv_is_checked (Css selector) p.

Definition get_element_count (self : PageObject) (selector : string) (p : Page)
  : result nat :=
  helpers.get_element_count selector p.

End Methods.
End BasePage.

(** ** src/pages/inventory_page.py *)

Module InventoryPage.
Local Open Scope page_scope.

Module locators.
Definition CART_BADGE : string := ".shopping_cart_badge".
Definition ITEM_NAME : string := ".inventory_item_name".
Definition ITEM_PRICE : string := ".inventory_item_price".
Definition SORT_DROPDOWN : string := "[data-test='product-sort-container']".
End locators.

(** The name the methods below put into the [data-test] selector. *)
Definition data_test_name (product_name : string) : string :=
  PyStr.replace ")" ""
    (PyStr.replace "(" "" (PyStr.replace " " "-" (PyStr.lower product_name))).

Section Methods.
Context `{Driver Page} `{PyFloat}.

Definition get_product_names (self : PageObject) (p : Page)
  : result (list string) :=
  rbind (locator_all (Css locators.ITEM_NAME) p) (fun elements =>
  rmap_list
    (fun el => rbind (drv_text_content el p) (fun t => Ok (py_or t "")))
    elements).

Definition get_product_prices (self : PageObject) (p : Page)
  : result (list float) :=
  rbind (locator_all (Css locators.ITEM_PRICE) p) (fun elements =>
  rmap_list
    (fun el =>
       rbind (drv_text_content el p) (fun t =>
       helpers.extract_price (py_or t "0")))
    elements).

Definition add_product_to_cart_by_name (self : PageObject)
    (product_name : string) : M Page PageObject :=
  let selector :=
    "[data-test='add-to-cart-" +:+ data_test_name product_name +:+ "']" in
  BasePage.click self selector ;;;
  ret self.

Definition remove_product_from_cart_by_name (self : PageObject)
    (product_name : string) : M Page PageObject :=
  let selector :=
    "[data-test='remove-" +:+ data_test_name product_name +:+ "']" in
  BasePage.click self selector ;;;
  ret self.

Definition sort_by (self : PageObject) (option : string) : M Page PageObject :=
  BasePage.select_option self locators.SORT_DROPDOWN option ;;;
  ret self.

Definition sort_by_name_desc (self : PageObject) := sort_by self "za".
Definition sort_by_price_low_to_high (self : PageObject) := sort_by self "lohi".
Definition sort_by_price_high_to_low (self : PageObject) := sort_by self "hilo".

Definition get_cart_count (self : PageObject) (p : Page) : result Z :=
  rbind (BasePage.is_visible self locators.CART_BADGE p) (fun visible =>
  if visible : bool then
    rbind (BasePage.get_text self locators.CART_BADGE p) (fun text =>
    match text with
    | EmptyString => Ok 0%Z
    | _ => PyStr.int text
    end)
  else Ok 0%Z).


Definition expect_products_sorted_by_name_asc (self : PageObject) (p : Page)
  : result unit :=
  rbind (get_product_names self p) (fun names =>
  py_assert (list_eqb String.eqb names (sorted String.ltb names))
    ("Products not sorted A-Z: " +:+ PyRepr.repr_list PyRepr.repr_str names)).

Definition expect_products_sorted_by_name_desc (self : PageObject) (p : Page)
  : result unit :=
  rbind (get_product_names self p) (fun names =>
  py_assert (list_eqb String.eqb names (sorted_reverse String.ltb names))
    ("Products not sorted Z-A: " +:+ PyRepr.repr_list PyRepr.repr_str names)).

Definition expect_products_sorted_by_price_asc (self : PageObject) (p : Page)
  : result unit :=
  rbind (get_product_prices self p) (fun prices =>
  py_assert (list_eqb float_eqb prices (sorted float_ltb prices))
    ("Products not sorted by price low-high: "
     +:+ PyRepr.repr_list float_str prices)).

Definition expect_products_sorted_by_price_desc (self : PageObject) (p : Page)
  : result unit :=
  rbind (get_product_prices self p) (fun prices =>
  py_assert (list_eqb float_eqb prices (sorted_reverse float_ltb prices))
    ("Products not sorted by price high-low: "
     +:+ PyRepr.repr_list float_str prices)).

End Methods.
End InventoryPage.

(** ** src/pages/cart_page.py *)

Module CartPage.
Local Open Scope page_scope.

Module locators.
Definition CART_ITEM : string := ".cart_item".
Definition REMOVE_BTN : string := "[data-test^='remove']".
End locators.

Definition data_test_name (item_name : string) : string :=
  PyStr.replace ")" ""
    (PyStr.replace "(" "" (PyStr.replace " " "-" (PyStr.lower item_name))).

Section Methods.
Context `{Driver Page}.

Definition get_cart_items_count (self : PageObject) (p : Page) : result nat :=
  BasePage.get_element_count self locators.CART_ITEM p.


Definition remove_item_by_index (self : PageObject) (index : Z)
  : M Page PageObject :=
  buttons <- query (locator_all (Css locators.REMOVE_BTN)) ;;
  if (index <? Z.of_nat (List.length buttons))%Z
  then (button <- query (fun _ => py_index buttons index) ;;
        drv_click button ;;;
        ret self)
  else raise (Exn IndexError
                ("Item index " +:+ PyStr.str_of_int index +:+ " out of range")).

(** The [while] loop of [remove_all_items], run for at most [fuel]
    tests of its condition; [None] when the fuel runs out first. *)
Fixpoint remove_all_items (fuel : nat) (self : PageObject) (p : Page)
  : option (result PageObject * Page) :=
  match fuel with
  | O => None
  | S fuel' =>
      match get_cart_items_count self p with
      | Err e => Some (Err e, p)
      | Ok n =>
          if (0 <? n)%nat then
            match remove_item_by_index self 0 p with
            | (Ok _, p') => remove_all_items fuel' self p'
            | (Err e, p') => Some (Err e, p')
            end
          else Some (Ok self, p)
      end
  end.

End Methods.
End CartPage.

(** ** src/pages/checkout_page.py *)

Module CheckoutStepTwoPage.

Module locators.
Definition SUBTOTAL : string := ".summary_subtotal_label".
Definition TAX : string := ".summary_tax_label".
Definition TOTAL : string := ".summary_total_label".
End locators.

Section Methods.
Context `{Driver Page} `{PyFloat}.

Definition get_subtotal (self : PageObject) (p : Page) : result float :=
  rbind (BasePage.get_text self locators.SUBTOTAL p) helpers.extract_price.

Definition get_tax (self : PageObject) (p : Page) : result float :=
  rbind (BasePage.get_text self locators.TAX p) helpers.extract_price.

Definition get_total (self : PageObject) (p : Page) : result float :=
  rbind (BasePage.get_text self locators.TOTAL p) helpers.extract_price.

Definition total_message (total subtotal tax : float) : string :=
  "Total " +:+ float_str total +:+ " != subtotal " +:+ float_str subtotal
  +:+ " + tax " +:+ float_str tax.

Definition expect_total_correct (self : PageObject) (p : Page) : result unit :=
  rbind (get_subtotal self p) (fun subtotal =>
  rbind (get_tax self p) (fun tax =>
  rbind (get_total self p) (fun total =>
  let expected_total := float_round (float_add subtotal tax) 2 in
  py_assert (float_eqb total expected_total)
    (total_message total subtotal tax)))).

End Methods.
End CheckoutStepTwoPage.

(** ** A driver to run the page objects on

    A small browser: the page is a flat list of elements in document order,
    selectors are the three forms the locator tables use ([.class],
    [[data-test='v']], [[data-test^='v']]), and the calls fail the way
    Playwright documents for them: a call that needs its element waits for
    it and raises [TimeoutError] when there is none, raises an error when
    the locator matches several, while [count] and [is_visible] answer at
    once. *)

Module Sim.

Inductive effect : Type :=
  | NoEffect
  | RemoveGroup (g : nat).   (* the click deletes the elements of group [g] *)

Record Element : Type := {
  el_classes : list string;
  el_data_test : option string;
  el_text : option string;
  el_value : option string;     (* [None]: not an input, textarea or select *)
  el_visible : bool;
  el_enabled : bool;
  el_checked : option bool;     (* [None]: not a checkbox or radio button *)
  el_group : nat;
  el_on_click : effect;
}.

Record SimPage : Type := {
  sp_dom : list Element;
  sp_idle : bool;                               (* the network goes idle in time *)
  sp_sites : list (string * list Element);      (* what each URL loads *)
  sp_options : list (string * list Element);    (* what each select option shows *)
}.

Definition set_dom (p : SimPage) (dom : list Element) : SimPage :=
  {| sp_dom := dom; sp_idle := sp_idle p; sp_sites := sp_sites p;
     sp_options := sp_options p |}.

Fixpoint assoc {A : Type} (k : string) (l : list (string * A)) : option A :=
  match l with
  | [] => None
  | (k', a) :: l' => if String.eqb k k' then Some a else assoc k l'
  end.

Definition ends_with (suffix s : string) : bool :=
  String.eqb
    (String.substring (String.length s - String.length suffix)
       (String.length suffix) s)
    suffix
  && (String.length suffix <=? String.length s)%nat.

(** The text between a prefix and a suffix of a selector. *)
Definition between (pre post s : string) : option string :=
  if String.prefix pre s && ends_with post s
     && (String.length pre + String.length post <=? String.length s)%nat
  then Some (String.substring (String.length pre)
               (String.length s - String.length pre - String.length post) s)
  else None.

Definition selector_matches (selector : string) (e : Element) : bool :=
  match selector with
  | String "." cls => existsb (String.eqb cls) (el_classes e)
  | _ =>
      match between "[data-test='" "']" selector with
      | Some v =>
          match el_data_test e with
          | Some d => String.eqb d v
          | None => false
          end
      | None =>
          match between "[data-test^='" "']" selector with
          | Some v =>
              match el_data_test e with
              | Some d => String.prefix v d
              | None => false
              end
          | None => false
          end
      end
  end.

Fixpoint resolve (l : Locator) (dom : list Element) : list Element :=
  match l with
  | Css selector => List.filter (selector_matches selector) dom
  | Nth l' i =>
      match nth_error (resolve l' dom) i with
      | Some e => [e]
      | None => []
      end
  end.

Definition timeout_error : exn :=
  Exn TimeoutError "Timeout exceeded while waiting for locator".
Definition strict_error : exn :=
  Exn PlaywrightError "strict mode violation: locator resolved to several elements".

(** The element a call acts on. *)
Definition the_element (l : Locator) (p : SimPage) : result Element :=
  match resolve l (sp_dom p) with
  | [] => Err timeout_error
  | [e] => Ok e
  | _ => Err strict_error
  end.

Definition goto (url : string) : M SimPage unit :=
  fun p =>
    match assoc url (sp_sites p) with
    | Some dom => (Ok tt, set_dom p dom)
    | None => (Err (Exn PlaywrightError "net::ERR_NAME_NOT_RESOLVED"), p)
    end.

Definition wait_for_load_state (state : string) (timeout : Z) : M SimPage unit :=
  fun p =>
    if sp_idle p then (Ok tt, p)
    else (Err (Exn TimeoutError "Timeout exceeded while waiting for load state"), p).

Definition apply_effect (f : effect) (dom : list Element) : list Element :=
  match f with
  | NoEffect => dom
  | RemoveGroup g => List.filter (fun e => negb (el_group e =? g)%nat) dom
  end.

Definition click (l : Locator) : M SimPage unit :=
  fun p =>
    match the_element l p with
    | Err e => (Err e, p)
    | Ok e =>
        if el_visible e && el_enabled e
        then (Ok tt, set_dom p (apply_effect (el_on_click e) (sp_dom p)))
        else (Err timeout_error, p)
    end.

Definition select_option (l : Locator) (value : string) : M SimPage unit :=
  fun p =>
    match the_element l p with
    | Err e => (Err e, p)
    | Ok e =>
        match assoc value (sp_options p) with
        | Some dom => (Ok tt, set_dom p dom)
        | None => (Err timeout_error, p)
        end
    end.

Definition text_content (l : Locator) (p : SimPage) : result (option string) :=
  rbind (the_element l p) (fun e => Ok (el_text e)).

Definition get_attribute (l : Locator) (name : string) (p : SimPage)
  : result (option string) :=
  rbind (the_element l p) (fun e =>
  if String.eqb name "data-test" then Ok (el_data_test e)
  else if String.eqb name "class" then
    Ok (match el_classes e with
        | [] => None
        | cs => Some (String.concat " " cs)
        end)
  else Ok None).

Definition input_value (l : Locator) (p : SimPage) : result string :=
  rbind (the_element l p) (fun e =>
  match el_value e with
  | Some v => Ok v
  | None =>
      Err (Exn PlaywrightError "Node is not an <input>, <textarea> or <select> element")
  end).

Definition is_visible (l : Locator) (p : SimPage) : result bool :=
  match resolve l (sp_dom p) with
  | [] => Ok false
  | [e] => Ok (el_visible e)
  | _ => Err strict_error
  end.

Definition is_enabled (l : Locator) (p : SimPage) : result bool :=
  rbind (the_element l p) (fun e => Ok (el_enabled e)).

Definition is_checked (l : Locator) (p : SimPage) : result bool :=
  rbind (the_element l p) (fun e =>
  match el_checked e with
  | Some b => Ok b
  | None => Err (Exn PlaywrightError "Not a checkbox or radio button")
  end).

Definition count (l : Locator) (p : SimPage) : result nat :=
  Ok (List.length (resolve l (sp_dom p))).

Definition expect_to_be_hidden (l : Locator) (p : SimPage) : result unit :=
  match resolve l (sp_dom p) with
  | [] => Ok tt
  | [e] =>
      if el_visible e
      then Err (Exn AssertionError "Locator expected to be hidden")
      else Ok tt
  | _ => Err strict_error
  end.

Definition expect_to_have_text (l : Locator) (text : string) (p : SimPage)
  : result unit :=
  match resolve l (sp_dom p) with
  | [e] =>
      if String.eqb (default EmptyString (el_text e)) text then Ok tt
      else Err (Exn AssertionError "Locator expected to have text")
  | [] => Err (Exn AssertionError "Locator expected to have text")
  | _ => Err strict_error
  end.

#[global] Instance driver : Driver SimPage := {|
  drv_goto := goto;
  drv_wait_for_load_state := wait_for_load_state;
  drv_click := click;
  drv_select_option := select_option;
  drv_text_content := text_content;
  drv_get_attribute := get_attribute;
  drv_input_value := input_value;
  drv_is_visible := is_visible;
  drv_is_enabled := is_enabled;
  drv_is_checked := is_checked;
  drv_count := count;
  drv_expect_to_be_hidden := expect_to_be_hidden;
  drv_expect_to_have_text := expect_to_have_text;
  |}.

(** Elements and pages for the examples. *)
Definition element (classes : list string) (data_test : option string)
    (text : string) (group : nat) (on_click : effect) : Element :=
  {| el_classes := classes; el_data_test := data_test; el_text := Some text;
     el_value := None; el_visible := true; el_enabled := true;
     el_checked := None; el_group := group; el_on_click := on_click |}.

Definition label (cls text : string) : Element :=
  element [cls] None text 0 NoEffect.

Definition static_page (dom : list Element) : SimPage :=
  {| sp_dom := dom; sp_idle := true; sp_sites := []; sp_options := [] |}.

Definition empty_page : SimPage := static_page [].

(** One row of the cart page: the item, its name and its remove button. *)
Definition cart_row (g : nat) (name data_test : string) : list Element :=
  [ element ["cart_item"] None name g NoEffect;
    element ["inventory_item_name"] None name g NoEffect;
    element ["btn"; "cart_button"] (Some ("remove-" +:+ data_test)) "Remove" g
      (RemoveGroup g) ].

Definition cart_of (rows : list (nat * string * string)) : SimPage :=
  static_page (flat_map (fun '(g, name, dt) => cart_row g name dt) rows).

Definition cart2 : SimPage :=
  cart_of [(1, "Sauce Labs Backpack", "sauce-labs-backpack");
           (2, "Sauce Labs Bike Light", "sauce-labs-bike-light")]%nat.

(** Amounts in whole cents with exact arithmetic: a [float] to run the
    price functions on. *)
Definition cents_of_decimal (m : Z) (k : nat) : Z :=
  match k with
  | 0%nat => m * 100
  | 1%nat => m * 10
  | _ => m / 10 ^ (Z.of_nat k - 2)
  end%Z.

#[global] Instance cents : PyFloat := {|
  float := Z;
  float_of_decimal := cents_of_decimal;
  float_add := Z.add;
  float_round := fun x _ => x;
  float_eqb := Z.eqb;
  float_ltb := Z.ltb;
  float_str := fun x =>
    PyStr.str_of_int (x / 100) +:+ "." +:+ PyStr.str_of_int ((x mod 100) / 10)
    +:+ PyStr.str_of_int (x mod 10);
  |}.

(** The settings of an empty environment. *)
Definition default_settings : settings.Settings :=
  {| settings.BASE_URL := "https://www.saucedemo.com";
     settings.STANDARD_USER := "standard_user";
     settings.LOCKED_OUT_USER := "locked_out_user";
     settings.PROBLEM_USER := "problem_user";
     settings.PERFORMANCE_USER := "performance_glitch_user";
     settings.ERROR_USER := "error_user";
     settings.VISUAL_USER := "visual_user";
     settings.PASSWORD := "secret_sauce";
     settings.HEADLESS := false;
     settings.SLOW_MO := 100;
     settings.TIMEOUT := 30000;
     settings.SCREENSHOT_ON_FAILURE := true;
     settings.VIDEO_ON_FAILURE := true |}.

(** The page object of the examples. *)
Definition self0 : PageObject :=
  {| base_url := "https://www.saucedemo.com"; timeout := 30000 |}.

(** An inventory page: the sort dropdown, then name and price per product. *)
Definition product (g : nat) (name price : string) : list Element :=
  [ element ["inventory_item_name"] None name g NoEffect;
    element ["inventory_item_price"] None price g NoEffect ].

Definition dropdown : Element :=
  {| el_classes := ["product_sort_container"];
     el_data_test := Some "product-sort-container";
     el_text := Some "Name (A to Z)"; el_value := Some "az"; el_visible := true;
     el_enabled := true; el_checked := None; el_group := 0;
     el_on_click := NoEffect |}.

Definition inventory_dom (rows : list (nat * string * string)) : list Element :=
  dropdown :: flat_map (fun '(g, name, price) => product g name price) rows.

Definition bike_light := (1, "Sauce Labs Bike Light", "$9.99")%nat.
Definition backpack := (2, "Sauce Labs Backpack", "$29.99")%nat.
Definition onesie := (3, "Sauce Labs Onesie", "$7.99")%nat.

(** A shop whose dropdown shows the products in the chosen order. *)
Definition shop_showing (rows : list (nat * string * string)) : SimPage :=
  {| sp_dom := inventory_dom rows;
     sp_idle := true;
     sp_sites := [("https://www.saucedemo.com/inventory.html",
                   inventory_dom [backpack; bike_light; onesie])];
     sp_options :=
       [("az", inventory_dom [backpack; bike_light; onesie]);
        ("za", inventory_dom [onesie; bike_light; backpack]);
        ("lohi", inventory_dom [onesie; bike_light; backpack]);
        ("hilo", inventory_dom [backpack; bike_light; onesie])] |}.

Definition shop : SimPage := shop_showing [bike_light; backpack; onesie].

(** The overview page of a checkout. *)
Definition overview (subtotal tax total : string) : SimPage :=
  static_page [ label "summary_subtotal_label" subtotal;
                label "summary_tax_label" tax;
                label "summary_total_label" total ].


(** A site that never goes idle. *)
Definition busy_site : SimPage :=
  {| sp_dom := []; sp_idle := false;
     sp_sites := [("https://www.saucedemo.com/cart.html", [])];
     sp_options := [] |}.

End Sim.

(** * Further code of the repository *)


(** ** src/pages/inventory_page.py: adding by index *)

Module InventoryPageIndex.
Local Open Scope page_scope.

Definition ADD_TO_CART_BTN : string := "[data-test^='add-to-cart']".

Section Methods.
Context `{Driver Page}.

Definition add_product_to_cart_by_index (self : PageObject) (index : Z)
  : M Page PageObject :=
  buttons <- query (locator_all (Css ADD_TO_CART_BTN)) ;;
  if (index <? Z.of_nat (List.length buttons))%Z
  then (button <- query (fun _ => py_index buttons index) ;;
        drv_click button ;;;
        ret self)
  else raise (Exn IndexError
                ("Product index " +:+ PyStr.str_of_int index +:+ " out of range")).

End Methods.
End InventoryPageIndex.

(** What a by-index method does once its [n] buttons are counted, for the
    statements about [remove_item_by_index] and
    [add_product_to_cart_by_index]. *)
Definition by_index_outcome {Page : Type} {D : Driver Page}
    (self : PageObject) (p : Page) (n : nat) (index : Z) (selector kind : string)
  : result PageObject * Page :=
  if (Z.of_nat n <=? index)%Z then
    (Err (Exn IndexError
            (kind +:+ " index " +:+ PyStr.str_of_int index +:+ " out of range")), p)
  else if (0 <=? index)%Z then
    bind (drv_click (Nth (Css selector) (Z.to_nat index))) (fun _ => ret self) p
  else if (- Z.of_nat n <=? index)%Z then
    bind (drv_click (Nth (Css selector) (Z.to_nat (Z.of_nat n + index))))
      (fun _ => ret self) p
  else (Err (Exn IndexError "list index out of range"), p).

(** ** More pages to run the definitions on *)

Module Pages.
Import Sim.

(** A cart whose remove button does nothing when clicked. *)
Definition stuck_cart : SimPage :=
  static_page
    [ element ["cart_item"] None "Sauce Labs Backpack" 1 NoEffect;
      element ["btn"] (Some "remove-sauce-labs-backpack") "Remove" 1 NoEffect ].

(** A cart that lists an item without any remove button. *)
Definition cart_without_buttons : SimPage :=
  static_page [ element ["cart_item"] None "Sauce Labs Backpack" 1 NoEffect ].

(** An inventory with two add-to-cart buttons; a click takes the button
    away. *)
Definition add_button (g : nat) (data_test : string) : Element :=
  element ["btn"] (Some ("add-to-cart-" +:+ data_test)) "Add to cart" g
    (RemoveGroup g).

Definition two_buttons : SimPage :=
  static_page [ add_button 1 "sauce-labs-backpack";
                add_button 2 "sauce-labs-bike-light" ].

(** An inventory where one price element is empty, and one where the
    price is a word. *)
Definition unpriced : SimPage :=
  static_page [ element ["inventory_item_price"] None "" 1 NoEffect;
                element ["inventory_item_price"] None "$29.99" 2 NoEffect ].

Definition free_item : SimPage :=
  static_page [ element ["inventory_item_price"] None "free" 1 NoEffect ].

(** An inventory that lists the same product twice. *)
Definition twins : SimPage :=
  static_page (product 1 "Sauce Labs Onesie" "$7.99"
               ++ product 2 "Sauce Labs Onesie" "$7.99").

End Pages.

(** ** src/pages/cart_page.py and src/pages/checkout_page.py: item lists *)

Module CartPageItems.

Definition ITEM_NAME : string := ".inventory_item_name".
Definition ITEM_PRICE : string := ".inventory_item_price".

Section Methods.
Context `{Driver Page} `{PyFloat}.

Definition get_cart_item_names (self : PageObject) (p : Page)
  : result (list string) :=
  rbind (locator_all (Css ITEM_NAME) p) (fun elements =>
  rmap_list
    (fun el => rbind (drv_text_content el p) (fun t => Ok (py_or t "")))
    elements).

Definition get_cart_item_prices (self : PageObject) (p : Page)
  : result (list float) :=
  rbind (locator_all (Css ITEM_PRICE) p) (fun elements =>
  rmap_list
    (fun el =>
       rbind (drv_text_content el p) (fun t =>
       helpers.extract_price (py_or t "0")))
    elements).

End Methods.
End CartPageItems.

Module CheckoutStepTwoItems.

Definition ITEM_NAME : string := ".inventory_item_name".
Definition ITEM_PRICE : string := ".inventory_item_price".

Section Methods.
Context `{Driver Page} `{PyFloat}.

Definition get_item_names (self : PageObject) (p : Page) : result (list string) :=
  rbind (locator_all (Css ITEM_NAME) p) (fun elements =>
  rmap_list
    (fun el => rbind (drv_text_content el p) (fun t => Ok (py_or t "")))
    elements).

Definition get_item_prices (self : PageObject) (p : Page) : result (list float) :=
  rbind (locator_all (Css ITEM_PRICE) p) (fun elements =>
  rmap_list
    (fun el =>
       rbind (drv_text_content el p) (fun t =>
       helpers.extract_price (py_or t "0")))
    elements).

End Methods.
End CheckoutStepTwoItems.

(** A text that is "true" up to the case of its four letters. *)
Definition spells_true (v : string) : bool :=
  match v with
  | String a (String b (String c (String d EmptyString))) =>
      ((a =? "t") || (a =? "T"))%char && ((b =? "r") || (b =? "R"))%char
      && ((c =? "u") || (c =? "U"))%char && ((d =? "e") || (d =? "E"))%char
  | _ => false
  end.

(** ** Python values that travel as data *)

(** What [json.load] returns and what the fixtures of pytest-playwright pass
    around: a dict is a finite map, a number that is no [int] is kept as its
    numeral. *)
#[warnings="-register-all"]
Inductive pyval :=
| PNone
| PBool (b : bool)
| PInt (n : Z)
| PFloat (numeral : string)
| PStr (s : string)
| PList (l : list pyval)
| PDict (d : gmap string pyval).

(** [s.endswith(suffix)]: some tail of [s] is [suffix]. *)
Fixpoint endswith (s suffix : string) : bool :=
  String.eqb s suffix
  || match s with
     | EmptyString => false
     | String _ t => endswith t suffix
     end.

(** ** src/utils/data_loader.py *)

Module DataLoader.

(** What loading raises: [open] on a file that is not there, [json.load] on
    a text that is no JSON document, and [.get] on a document that is no
    object. *)
Inductive error :=
| FileNotFoundError (filename : string)
| JSONDecodeError
| AttributeError.

(** The data directory: [file name] is the text of [DATA_DIR / name], if
    there is such a file; [json_load] and [csv_rows] are the decoders of
    the standard library. *)
Record DataDir (Row : Type) := {
  file : string -> option string;
  json_load : string -> option pyval;
  csv_rows : string -> list Row;
}.
Arguments file {Row}.
Arguments json_load {Row}.
Arguments csv_rows {Row}.

Section Loader.
Context {Row : Type} (dir : DataDir Row).

Definition open (filename : string) : error + string :=
  match file dir filename with
  | Some text => inr text
  | None => inl (FileNotFoundError filename)
  end.

Definition json_filename (filename : string) : string :=
  if negb (endswith filename ".json") then filename +:+ ".json" else filename.

Definition csv_filename (filename : string) : string :=
  if negb (endswith filename ".csv") then filename +:+ ".csv" else filename.

Definition load_json (filename : string) : error + pyval :=
  let filename := json_filename filename in
  match open filename with
  | inl e => inl e
  | inr text =>
      match json_load dir text with
      | Some data => inr data
      | None => inl JSONDecodeError
      end
  end.

Definition load_csv (filename : string) : error + list Row :=
  let filename := csv_filename filename in
  match open filename with
  | inl e => inl e
  | inr text => inr (csv_rows dir text)
  end.




End Loader.
End DataLoader.

(** ** src/conftest.py *)

Module conftest.

(** [{**browser_context_args, "viewport": ..., "locale": ..., "timezone_id": ...}] *)
Definition browser_context_args (browser_context_args : gmap string pyval)
  : gmap string pyval :=
  <["timezone_id" := PStr "Europe/Paris"]>
    (<["locale" := PStr "fr-FR"]>
       (<["viewport" := PDict (<["height" := PInt 1080]>
                                 (<["width" := PInt 1920]> ∅))]>
          browser_context_args)).

(** [{**browser_type_launch_args, "headless": ..., "slow_mo": ...}] *)
Definition browser_type_launch_args (st : settings.Settings)
    (browser_type_launch_args : gmap string pyval) : gmap string pyval :=
  <["slow_mo" := PInt (settings.SLOW_MO st)]>
    (<["headless" := PBool (settings.HEADLESS st)]> browser_type_launch_args).

End conftest.

(** Small data directories to run the loader on. *)
Module Data.

Definition users_text : string := "{'valid_users': [{'username': 'standard_user'}], 'invalid_users': null}".

(** A decoder that knows three documents. *)
Definition decode (text : string) : option pyval :=
  if String.eqb text "{}" then Some (PDict ∅)
  else if String.eqb text "[]" then Some (PList [])
  else if String.eqb text users_text then
    Some (PDict (<["valid_users" :=
                     PList [PDict (<["username" := PStr "standard_user"]> ∅)]]>
                   (<["invalid_users" := PNone]> ∅)))
  else None.

Definition lookup_file (files : list (string * string)) (filename : string)
  : option string :=
  match find (fun entry => String.eqb (fst entry) filename) files with
  | Some entry => Some (snd entry)
  | None => None
  end.

Definition directory (files : list (string * string)) : DataLoader.DataDir unit :=
  {| DataLoader.file := lookup_file files;
     DataLoader.json_load := decode;
     DataLoader.csv_rows := fun _ => [] |}.

End Data.

(** ** The error message of a form: src/pages/login_page.py and
    src/pages/checkout_page.py *)

(** Two more assertions of Playwright. *)
Class ExpectDriver (Page : Type) : Type := {
  (* expect(locator).to_be_visible() *)
  drv_expect_to_be_visible : Locator -> Page -> result unit;
  (* expect(locator).to_contain_text(text) *)
  drv_expect_to_contain_text : Locator -> string -> Page -> result unit;
}.

(** [if expected_error:] on an optional string: [None] and the empty string
    are falsy. *)
Definition py_truthy (s : option string) : option string :=
  match s with
  | Some (String c t) => Some (String c t)
  | _ => None
  end.

Module LoginPage.
Local Open Scope page_scope.

Module locators.
Definition ERROR_MESSAGE : string := "[data-test='error']".
Definition ERROR_BUTTON : string := ".error-button".
End locators.

Section Methods.
Context `{Driver Page} `{ExpectDriver Page}.

Definition is_error_displayed (self : PageObject) (p : Page) : result bool :=
  BasePage.is_visible self locators.ERROR_MESSAGE p.

Definition close_error_message (self : PageObject) : M Page unit :=
  displayed <- query (is_error_displayed self) ;;
  if displayed : bool then BasePage.click self locators.ERROR_BUTTON else ret tt.

Definition expect_login_failed (self : PageObject)
    (expected_error : option string) (p : Page) : result unit :=
  rbind (drv_expect_to_be_visible (Css locators.ERROR_MESSAGE) p) (fun _ =>
  match py_truthy expected_error with
  | Some text => drv_expect_to_contain_text (Css locators.ERROR_MESSAGE) text p
  | None => Ok tt
  end).

End Methods.
End LoginPage.

Module CheckoutStepOnePage.
Local Open Scope page_scope.

Module locators.
Definition ERROR_MESSAGE : string := "[data-test='error']".
Definition ERROR_BUTTON : string := ".error-button".
End locators.

Section Methods.
Context `{Driver Page} `{ExpectDriver Page}.

Definition is_error_displayed (self : PageObject) (p : Page) : result bool :=
  BasePage.is_visible self locators.ERROR_MESSAGE p.

Definition close_error_message (self : PageObject) : M Page unit :=
  displayed <- query (is_error_displayed self) ;;
  if displayed : bool then BasePage.click self locators.ERROR_BUTTON else ret tt.

Definition expect_error_message (self : PageObject)
    (expected_error : option string) (p : Page) : result unit :=
  rbind (drv_expect_to_be_visible (Css locators.ERROR_MESSAGE) p) (fun _ =>
  match py_truthy expected_error with
  | Some text => drv_expect_to_contain_text (Css locators.ERROR_MESSAGE) text p
  | None => Ok tt
  end).

End Methods.
End CheckoutStepOnePage.

(** The two assertions on the simulated page, and a login page that shows
    an error message. *)
Module SimForm.
Import Sim.

(** [sub in s] *)
Fixpoint contains (sub s : string) : bool :=
  String.prefix sub s
  || match s with
     | EmptyString => false
     | String _ t => contains sub t
     end.

Definition expect_to_be_visible (l : Locator) (p : SimPage) : result unit :=
  match resolve l (sp_dom p) with
  | [e] =>
      if el_visible e then Ok tt
      else Err (Exn AssertionError "Locator expected to be visible")
  | [] => Err (Exn AssertionError "Locator expected to be visible")
  | _ => Err strict_error
  end.

Definition expect_to_contain_text (l : Locator) (text : string) (p : SimPage)
  : result unit :=
  match resolve l (sp_dom p) with
  | [e] =>
      if contains text (default EmptyString (el_text e)) then Ok tt
      else Err (Exn AssertionError "Locator expected to contain text")
  | [] => Err (Exn AssertionError "Locator expected to contain text")
  | _ => Err strict_error
  end.

#[global] Instance expect_driver : ExpectDriver SimPage := {|
  drv_expect_to_be_visible := expect_to_be_visible;
  drv_expect_to_contain_text := expect_to_contain_text;
  |}.

Definition failed_login : SimPage :=
  static_page
    [ element [] (Some "error") "Epic sadface: Username is required" 1 NoEffect;
      element ["error-button"] None "" 1 (RemoveGroup 1) ].

End SimForm.

(** ** The specification's own wording, to compare the code with *)

Module Spec.

(** The identifier of a displayed name: every character lower-cased, a
    space turned into a hyphen, parentheses dropped. *)
Definition derive_char (c : ascii) : string :=
  let c := PyStr.lower_char c in
  if (c =? " ")%char then "-"
  else if (c =? "(")%char || (c =? ")")%char then EmptyString
  else String c EmptyString.

Fixpoint derive (s : string) : string :=
  match s with
  | EmptyString => EmptyString
  | String c s' => derive_char c +:+ derive s'
  end.

Fixpoint all_chars (P : ascii -> bool) (s : string) : bool :=
  match s with
  | EmptyString => true
  | String c s' => P c && all_chars P s'
  end.

Definition head_char (s : string) : option ascii :=
  match s with
  | EmptyString => None
  | String c _ => Some c
  end.

Definition price_char (c : ascii) : bool := PyStr.is_digit c || (c =? ".")%char.

(** [run] is the first maximal run of digits and points in [s]: nothing
    before it is a digit or a point, it is not empty, and it cannot be
    extended to the right. *)
Definition first_maximal_run (s run : string) : Prop :=
  exists before after,
    s = before +:+ run +:+ after
    /\ all_chars (fun c => negb (price_char c)) before = true
    /\ run <> EmptyString
    /\ all_chars price_char run = true
    /\ match head_char after with
       | Some c => price_char c = false
       | None => True
       end.

Fixpoint count_char (a : ascii) (s : string) : nat :=
  match s with
  | EmptyString => 0
  | String c s' => (if (c =? a)%char then 1 else 0) + count_char a s'
  end.

(** A run of digits and points is a decimal numeral when it has at most
    one point and at least one digit. *)
Definition valid_decimal_numeral (run : string) : Prop :=
  count_char "." run <= 1 /\ count_char "." run < String.length run.

(** The value of a valid numeral: its digits read as an integer, and the
    number of digits after the point. *)
Fixpoint numeral_digits (run : string) (acc : Z) : Z :=
  match run with
  | EmptyString => acc
  | String c s' =>
      if (c =? ".")%char then numeral_digits s' acc
      else numeral_digits s' (10 * acc + PyStr.digit_val c)%Z
  end.

Fixpoint numeral_scale (run : string) : nat :=
  match run with
  | EmptyString => 0
  | String c s' => if (c =? ".")%char then String.length s' else numeral_scale s'
  end.

End Spec.

(** Replacing one character by a string, character by character. *)
Fixpoint subst_char (a : ascii) (new : string) (s : string) : string :=
  match s with
  | EmptyString => EmptyString
  | String c s' =>
      (if (c =? a)%char then new else String c EmptyString) +:+ subst_char a new s'
  end.

(** * Properties *)

(** ** The primitives on examples *)

Example lower_example : PyStr.lower "Sauce Labs Bolt T-Shirt" = "sauce labs bolt t-shirt".
Proof. reflexivity. Qed.

Example replace_examples :
  PyStr.replace "ab" "X" "aababab" = "aXXX"
  /\ PyStr.replace "aa" "b" "aaaaa" = "bba"
  /\ PyStr.replace "" "-" "abc" = "-a-b-c-"
  /\ PyStr.replace "(" "" "t-shirt-(red)" = "t-shirt-red)".
Proof. repeat split. Qed.

Example data_test_name_example :
  InventoryPage.data_test_name "Test.allTheThings() T-Shirt (Red)"
  = "test.allthethings-t-shirt-red".
Proof. reflexivity. Qed.

Example int_examples :
  PyStr.int " 12 " = Ok 12%Z
  /\ PyStr.int "-1_000" = Ok (-1000)%Z
  /\ PyStr.int "+007" = Ok 7%Z
  /\ raises ValueError (PyStr.int "1__0")
  /\ raises ValueError (PyStr.int "3 items")
  /\ raises ValueError (PyStr.int "").
Proof. repeat split; eexists; reflexivity. Qed.

Example str_of_int_examples :
  PyStr.str_of_int 0 = "0" /\ PyStr.str_of_int 6 = "6"
  /\ PyStr.str_of_int 1024 = "1024" /\ PyStr.str_of_int (-907) = "-907".
Proof. repeat split. Qed.

Example repr_example :
  PyRepr.repr_list PyRepr.repr_str ["Sauce Labs Onesie"; "it's"]
  = String.concat "" ["['Sauce Labs Onesie', "; String "034" "it's"; String "034" "]"].
Proof. reflexivity. Qed.

Example re_search_examples :
  helpers.re_search "Item total: $29.99" = Some "29.99"
  /\ helpers.re_search "v1.2.3 costs 4" = Some "1.2.3"
  /\ helpers.re_search "Total: $." = Some "."
  /\ helpers.re_search "free" = None.
Proof. repeat split. Qed.

Example float_parse_examples :
  helpers.float_parse "29.99" = Some (2999%Z, 2)
  /\ helpers.float_parse "007" = Some (7%Z, 0)
  /\ helpers.float_parse "1." = Some (1%Z, 0)
  /\ helpers.float_parse ".5" = Some (5%Z, 1)
  /\ helpers.float_parse "." = None
  /\ helpers.float_parse "1.2.3" = None.
Proof. repeat split. Qed.

Example sorted_examples :
  sorted Nat.ltb [3; 1; 2; 1] = [1; 1; 2; 3]
  /\ sorted_reverse Nat.ltb [3; 1; 2; 1] = [3; 2; 1; 1]
  /\ sorted String.ltb ["b"; "B"; "a"; "Z"] = ["B"; "Z"; "a"; "b"].
Proof. repeat split. Qed.

Example py_index_examples :
  py_index [10; 20; 30] 0 = Ok 10 /\ py_index [10; 20; 30] (-1) = Ok 30
  /\ raises IndexError (py_index [10; 20; 30] 3)
  /\ raises IndexError (py_index (A := nat) [] (-1)).
Proof. repeat split; eexists; reflexivity. Qed.

Example load_empty_environment : settings.load ∅ = Ok Sim.default_settings.
Proof. reflexivity. Qed.

Example load_with_environment :
  settings.load (<["TIMEOUT" := "5_000"]> (<["HEADLESS" := "True"]> ∅))
  = Ok {| settings.BASE_URL := "https://www.saucedemo.com";
          settings.STANDARD_USER := "standard_user";
          settings.LOCKED_OUT_USER := "locked_out_user";
          settings.PROBLEM_USER := "problem_user";
          settings.PERFORMANCE_USER := "performance_glitch_user";
          settings.ERROR_USER := "error_user";
          settings.VISUAL_USER := "visual_user";
          settings.PASSWORD := "secret_sauce";
          settings.HEADLESS := true;
          settings.SLOW_MO := 100;
          settings.TIMEOUT := 5000;
          settings.SCREENSHOT_ON_FAILURE := true;
          settings.VIDEO_ON_FAILURE := true |}
  /\ raises ValueError (settings.load (<["SLOW_MO" := "fast"]> ∅)).
Proof. split; [|eexists]; vm_compute; reflexivity. Qed.

Example remove_all_items_example :
  CartPage.remove_all_items 3 Sim.self0 Sim.cart2 = Some (Ok Sim.self0, Sim.static_page [])
  /\ CartPage.remove_all_items 2 Sim.self0 Sim.cart2 = None
  /\ fst (CartPage.remove_item_by_index Sim.self0 0 Sim.empty_page)
     = Err (Exn IndexError "Item index 0 out of range")
  /\ fst (CartPage.remove_item_by_index Sim.self0 5 Sim.cart2)
     = Err (Exn IndexError "Item index 5 out of range").
Proof. repeat split. Qed.

(** ** Strings *)

Lemma prefix_single (a c : ascii) (s : string) :
  String.prefix (String a EmptyString) (String c s) = (c =? a)%char.
Proof.
  simpl. destruct (ascii_dec a c) as [->|Hne].
  - rewrite Ascii.eqb_refl. destruct s; reflexivity.
  - symmetry. apply Ascii.eqb_neq. congruence.
Qed.

Lemma replace_single (a : ascii) (new s : string) :
  PyStr.replace (String a EmptyString) new s = subst_char a new s.
Proof.
  unfold PyStr.replace.
  induction s as [|c s IH]; [reflexivity|].
  cbn [PyStr.replace_from subst_char]. rewrite prefix_single.
  cbn [String.length Nat.sub]. rewrite IH.
  destruct (c =? a)%char; reflexivity.
Qed.

Lemma derive_char_passes (c : ascii) (rest : string) :
  subst_char ")" ""
    (subst_char "(" "" (subst_char " " "-" (String (PyStr.lower_char c) rest)))
  = Spec.derive_char c
    +:+ subst_char ")" "" (subst_char "(" "" (subst_char " " "-" rest)).
Proof.
  unfold Spec.derive_char.
  generalize (PyStr.lower_char c) as d. intros d.
  change (subst_char " " "-" (String d rest))
    with ((if (d =? " ")%char then "-" else String d EmptyString)
          +:+ subst_char " " "-" rest).
  destruct (d =? " ")%char eqn:Hsp; [reflexivity|].
  change (subst_char "(" "" (String d EmptyString +:+ subst_char " " "-" rest))
    with ((if (d =? "(")%char then EmptyString else String d EmptyString)
          +:+ subst_char "(" "" (subst_char " " "-" rest)).
  destruct (d =? "(")%char eqn:Hop; [reflexivity|].
  change (subst_char ")" ""
            (String d EmptyString +:+ subst_char "(" "" (subst_char " " "-" rest)))
    with ((if (d =? ")")%char then EmptyString else String d EmptyString)
          +:+ subst_char ")" "" (subst_char "(" "" (subst_char " " "-" rest))).
  destruct (d =? ")")%char; reflexivity.
Qed.

Lemma data_test_name_derive (s : string) :
  InventoryPage.data_test_name s = Spec.derive s.
Proof.
  unfold InventoryPage.data_test_name. rewrite !replace_single.
  induction s as [|c s IH]; [reflexivity|].
  cbn [PyStr.lower Spec.derive]. rewrite derive_char_passes, IH. reflexivity.
Qed.


(** ** Settings *)

Lemma getenv_unset (env : gmap string string) (key d : string) :
  env !! key = None -> settings.getenv env key d = d.
Proof. unfold settings.getenv. intros ->. reflexivity. Qed.

Lemma flag_unset (env : gmap string string) (key d : string) :
  env !! key = None ->
  settings.flag env key d = String.eqb (PyStr.lower d) "true".
Proof. unfold settings.flag. intros H. rewrite getenv_unset by exact H. reflexivity. Qed.

Lemma load_inv (env : gmap string string) (st : settings.Settings) :
  settings.load env = Ok st ->
  exists slow_mo timeout,
    PyStr.int (settings.getenv env "SLOW_MO" "100") = Ok slow_mo
    /\ PyStr.int (settings.getenv env "TIMEOUT" "30000") = Ok timeout
    /\ st = {| settings.BASE_URL := settings.getenv env "BASE_URL" "https://www.saucedemo.com";
               settings.STANDARD_USER := settings.getenv env "STANDARD_USER" "standard_user";
               settings.LOCKED_OUT_USER := settings.getenv env "LOCKED_OUT_USER" "locked_out_user";
               settings.PROBLEM_USER := settings.getenv env "PROBLEM_USER" "problem_user";
               settings.PERFORMANCE_USER :=
                 settings.getenv env "PERFORMANCE_USER" "performance_glitch_user";
               settings.ERROR_USER := settings.getenv env "ERROR_USER" "error_user";
               settings.VISUAL_USER := settings.getenv env "VISUAL_USER" "visual_user";
               settings.PASSWORD := settings.getenv env "PASSWORD" "secret_sauce";
               settings.HEADLESS := settings.flag env "HEADLESS" "false";
               settings.SLOW_MO := slow_mo;
               settings.TIMEOUT := timeout;
               settings.SCREENSHOT_ON_FAILURE := settings.flag env "SCREENSHOT_ON_FAILURE" "true";
               settings.VIDEO_ON_FAILURE := settings.flag env "VIDEO_ON_FAILURE" "true" |}.
Proof.
  unfold settings.load. intros Hload.
  destruct (PyStr.int (settings.getenv env "SLOW_MO" "100")) as [a|e]; [|discriminate].
  destruct (PyStr.int (settings.getenv env "TIMEOUT" "30000")) as [b|e]; [|discriminate].
  cbn [rbind] in Hload. injection Hload as <-. eauto.
Qed.

(** C7, the claim as written fails: the settings name six users, not five. *)
Lemma C7_user_identifiers_are_not_five :
  exists st, settings.load ∅ = Ok st
    /\ List.length (settings.user_identifiers st) = 6
    /\ NoDup (settings.user_identifiers st)
    /\ List.length settings.user_variables <> 5.
Proof.
  eexists. split; [reflexivity|]. split; [reflexivity|]. split.
  - apply (bool_decide_unpack _). vm_compute. exact I.
  - cbn. lia.
Qed.

(** C7, amended. Every setting is optional: a setting whose environment
    variable is unset has its default (BASE_URL "https://www.saucedemo.com",
    PASSWORD "secret_sauce", HEADLESS false, SLOW_MO 100, TIMEOUT 30000,
    SCREENSHOT_ON_FAILURE true, VIDEO_ON_FAILURE true), loading succeeds
    when SLOW_MO and TIMEOUT are unset, and there are exactly six named user
    identifiers, each with its SauceDemo user name as default. *)
Theorem C7_settings_defaults
    (env : gmap string string) (st : settings.Settings)
    (Hload : settings.load env = Ok st) :
  (env !! "BASE_URL" = None -> settings.BASE_URL st = "https://www.saucedemo.com")
  /\ (env !! "PASSWORD" = None -> settings.PASSWORD st = "secret_sauce")
  /\ (env !! "HEADLESS" = None -> settings.HEADLESS st = false)
  /\ (env !! "SLOW_MO" = None -> settings.SLOW_MO st = 100%Z)
  /\ (env !! "TIMEOUT" = None -> settings.TIMEOUT st = 30000%Z)
  /\ (env !! "SCREENSHOT_ON_FAILURE" = None -> settings.SCREENSHOT_ON_FAILURE st = true)
  /\ (env !! "VIDEO_ON_FAILURE" = None -> settings.VIDEO_ON_FAILURE st = true)
  /\ settings.user_variables
     = ["STANDARD_USER"; "LOCKED_OUT_USER"; "PROBLEM_USER"; "PERFORMANCE_USER";
        "ERROR_USER"; "VISUAL_USER"]
  /\ settings.user_identifiers st
     = zip_with (settings.getenv env) settings.user_variables
         ["standard_user"; "locked_out_user"; "problem_user";
          "performance_glitch_user"; "error_user"; "visual_user"]
  /\ (forall env' : gmap string string,
        env' !! "SLOW_MO" = None -> env' !! "TIMEOUT" = None ->
        exists st', settings.load env' = Ok st').
Proof.
  destruct (load_inv env st Hload) as (slow_mo & tmo & Hs & Ht & ->).
  cbn [settings.BASE_URL settings.PASSWORD settings.HEADLESS settings.SLOW_MO
       settings.TIMEOUT settings.SCREENSHOT_ON_FAILURE settings.VIDEO_ON_FAILURE].
  repeat split.
  - apply getenv_unset.
  - apply getenv_unset.
  - intros H. rewrite flag_unset by exact H. reflexivity.
  - intros H. rewrite getenv_unset in Hs by exact H.
    vm_compute in Hs. congruence.
  - intros H. rewrite getenv_unset in Ht by exact H.
    vm_compute in Ht. congruence.
  - intros H. rewrite flag_unset by exact H. reflexivity.
  - intros H. rewrite flag_unset by exact H. reflexivity.
  - intros env' H1 H2. unfold settings.load.
    rewrite (getenv_unset env' "SLOW_MO" "100" H1).
    rewrite (getenv_unset env' "TIMEOUT" "30000" H2).
    eexists. reflexivity.
Qed.

Lemma C7_settings_defaults_witness :
  exists st, settings.load ∅ = Ok st
    /\ settings.BASE_URL st = "https://www.saucedemo.com"
    /\ settings.TIMEOUT st = 30000%Z.
Proof.
  eexists. split; [reflexivity|].
  pose proof (C7_settings_defaults ∅ _ eq_refl) as H.
  split.
  - apply (proj1 H). reflexivity.
  - apply (proj1 (proj2 (proj2 (proj2 (proj2 H))))). reflexivity.
Defined.

(** ** extract_price *)

Lemma append_cons (c : ascii) (a b : string) :
  String c a +:+ b = String c (a +:+ b).
Proof. reflexivity. Qed.

Lemma append_nil (b : string) : EmptyString +:+ b = b.
Proof. reflexivity. Qed.

Ltac unfold_append := rewrite ?append_cons, ?append_nil.

Lemma in_class_price_char (c : ascii) : helpers.in_class c = Spec.price_char c.
Proof. reflexivity. Qed.

Lemma digit_not_point (c : ascii) :
  PyStr.is_digit c = true -> (c =? ".")%char = false.
Proof.
  intros Hd. destruct (c =? ".")%char eqn:E; [|reflexivity].
  apply Ascii.eqb_eq in E. subst c. vm_compute in Hd. discriminate.
Qed.

Lemma price_char_cases (c : ascii) :
  Spec.price_char c = true ->
  (PyStr.is_digit c = true /\ (c =? ".")%char = false)
  \/ (PyStr.is_digit c = false /\ c = "."%char).
Proof.
  unfold Spec.price_char. intros H.
  destruct (PyStr.is_digit c) eqn:Hd.
  - left. split; [reflexivity|]. apply digit_not_point, Hd.
  - right. split; [reflexivity|]. apply Ascii.eqb_eq. exact H.
Qed.

Lemma take_run_spec (s : string) :
  exists after,
    s = helpers.take_run s +:+ after
    /\ Spec.all_chars Spec.price_char (helpers.take_run s) = true
    /\ match Spec.head_char after with
       | Some c => Spec.price_char c = false
       | None => True
       end.
Proof.
  induction s as [|c s (after & Hs & Hall & Hhd)].
  - exists EmptyString. repeat split.
  - cbn [helpers.take_run]. rewrite in_class_price_char.
    destruct (Spec.price_char c) eqn:Hc.
    + exists after. unfold_append; cbn [Spec.all_chars]. rewrite Hc, Hall.
      repeat split; [congruence|exact Hhd].
    + exists (String c s). cbn. rewrite Hc. repeat split.
Qed.

Lemma re_search_sound (s run : string) :
  helpers.re_search s = Some run -> Spec.first_maximal_run s run.
Proof.
  induction s as [|c s IH]; [discriminate|].
  cbn [helpers.re_search]. rewrite in_class_price_char.
  destruct (Spec.price_char c) eqn:Hc.
  - intros [= <-]. destruct (take_run_spec s) as (after & Hs & Hall & Hhd).
    exists EmptyString, after. unfold_append; cbn [Spec.all_chars].
    rewrite Hc, Hall. repeat split; [congruence|discriminate|exact Hhd].
  - intros Hr. destruct (IH Hr) as (before & after & -> & Hb & Hne & Hall & Hhd).
    exists (String c before), after. unfold_append; cbn [Spec.all_chars].
    rewrite Hc, Hb. repeat split; assumption.
Qed.

Lemma take_run_maximal (run after : string) :
  Spec.all_chars Spec.price_char run = true ->
  match Spec.head_char after with
  | Some c => Spec.price_char c = false
  | None => True
  end ->
  helpers.take_run (run +:+ after) = run.
Proof.
  intros Hall Hhd. induction run as [|c run IH].
  - destruct after as [|d after]; [reflexivity|].
    rewrite append_nil. cbn [helpers.take_run Spec.head_char] in *.
    rewrite in_class_price_char, Hhd. reflexivity.
  - cbn in Hall. apply andb_prop in Hall as [Hc Hall].
    unfold_append; cbn [helpers.take_run]. rewrite in_class_price_char, Hc.
    rewrite IH by exact Hall. reflexivity.
Qed.

Lemma re_search_complete (s run : string) :
  Spec.first_maximal_run s run -> helpers.re_search s = Some run.
Proof.
  intros (before & after & -> & Hb & Hne & Hall & Hhd).
  induction before as [|c before IH].
  - destruct run as [|c run]; [congruence|].
    cbn in Hall. apply andb_prop in Hall as [Hc Hall].
    unfold_append; cbn [helpers.re_search]. rewrite in_class_price_char, Hc.
    rewrite take_run_maximal by assumption. reflexivity.
  - cbn in Hb. apply andb_prop in Hb as [Hc Hb].
    apply negb_true_iff in Hc.
    unfold_append; cbn [helpers.re_search]. rewrite in_class_price_char, Hc.
    apply IH, Hb.
Qed.

Lemma re_search_iff (s run : string) :
  helpers.re_search s = Some run <-> Spec.first_maximal_run s run.
Proof. split; [apply re_search_sound|apply re_search_complete]. Qed.

Lemma re_search_none_iff (s : string) :
  helpers.re_search s = None <-> ~ exists run, Spec.first_maximal_run s run.
Proof.
  split.
  - intros Hn (run & Hrun). apply re_search_complete in Hrun. congruence.
  - intros Hno. destruct (helpers.re_search s) as [run|] eqn:E; [|reflexivity].
    exfalso. apply Hno. exists run. apply re_search_sound, E.
Qed.

(** Digits only: no point, and the two readings of the digits agree. *)
Lemma all_digits_facts (s : string) :
  helpers.all_digits s = true ->
  Spec.count_char "." s = 0
  /\ forall acc, Spec.numeral_digits s acc = helpers.digits_value s acc.
Proof.
  induction s as [|c s IH]; [intros _; split; reflexivity|].
  cbn [helpers.all_digits]. intros H. apply andb_prop in H as [Hc Hs].
  destruct (IH Hs) as [Hcnt Hval].
  cbn [Spec.count_char Spec.numeral_digits helpers.digits_value].
  rewrite (digit_not_point c Hc). split; [exact Hcnt|intros acc; apply Hval].
Qed.

Lemma all_digits_iff_no_point (s : string) :
  Spec.all_chars Spec.price_char s = true ->
  (helpers.all_digits s = true <-> Spec.count_char "." s = 0).
Proof.
  induction s as [|c s IH]; [intros _; split; reflexivity|].
  cbn [Spec.all_chars]. intros H. apply andb_prop in H as [Hc Hs].
  cbn [helpers.all_digits Spec.count_char].
  destruct (price_char_cases c Hc) as [[Hd Hp]|[Hd ->]]; rewrite Hd.
  - rewrite Hp. cbn. apply IH, Hs.
  - cbn. split; [discriminate|lia].
Qed.

(** What [split_point] returns on a run of digits and points. *)
Lemma split_point_run (run : string) :
  Spec.all_chars Spec.price_char run = true ->
  match helpers.split_point run with
  | (ip, None) =>
      run = ip /\ helpers.all_digits ip = true
  | (ip, Some fp) =>
      run = ip +:+ String "." fp
      /\ helpers.all_digits ip = true
      /\ Spec.all_chars Spec.price_char fp = true
  end.
Proof.
  induction run as [|c run IH]; [intros _; split; reflexivity|].
  cbn [Spec.all_chars]. intros H. apply andb_prop in H as [Hc Hs].
  specialize (IH Hs). cbn [helpers.split_point].
  destruct (price_char_cases c Hc) as [[Hd Hp]|[Hd ->]].
  - rewrite Hp. destruct (helpers.split_point run) as [ip [fp|]].
    + destruct IH as (-> & Hip & Hfp). unfold_append; cbn [helpers.all_digits].
      rewrite Hd, Hip. repeat split. exact Hfp.
    + destruct IH as (-> & Hip). cbn [helpers.all_digits]. rewrite Hd, Hip.
      split; reflexivity.
  - rewrite Ascii.eqb_refl. repeat split. exact Hs.
Qed.

Lemma count_point_app (a b : string) :
  Spec.count_char "." (a +:+ b) = Spec.count_char "." a + Spec.count_char "." b.
Proof.
  induction a as [|c a IH]; [reflexivity|].
  unfold_append; cbn [Spec.count_char]. rewrite IH. lia.
Qed.

Lemma string_length_app (a b : string) :
  String.length (a +:+ b) = String.length a + String.length b.
Proof.
  induction a as [|c a IH]; [reflexivity|].
  rewrite append_cons. cbn [String.length]. rewrite IH. reflexivity.
Qed.

Lemma numeral_digits_app (ip rest : string) (acc : Z) :
  helpers.all_digits ip = true ->
  Spec.numeral_digits (ip +:+ rest) acc
  = Spec.numeral_digits rest (helpers.digits_value ip acc).
Proof.
  revert acc. induction ip as [|c ip IH]; intros acc; [reflexivity|].
  cbn [helpers.all_digits]. intros H. apply andb_prop in H as [Hc Hs].
  unfold_append; cbn [Spec.numeral_digits helpers.digits_value].
  rewrite (digit_not_point c Hc). apply IH, Hs.
Qed.

Lemma digits_value_app (a b : string) (acc : Z) :
  helpers.digits_value (a +:+ b) acc
  = helpers.digits_value b (helpers.digits_value a acc).
Proof.
  revert acc. induction a as [|c a IH]; intros acc; [reflexivity|].
  unfold_append; cbn [helpers.digits_value]. apply IH.
Qed.

Lemma numeral_scale_app (ip fp : string) :
  helpers.all_digits ip = true ->
  Spec.numeral_scale (ip +:+ String "." fp) = String.length fp.
Proof.
  induction ip as [|c ip IH]; [reflexivity|].
  cbn [helpers.all_digits]. intros H. apply andb_prop in H as [Hc Hs].
  unfold_append; cbn [Spec.numeral_scale].
  rewrite (digit_not_point c Hc). apply IH, Hs.
Qed.

Lemma numeral_scale_digits (ip : string) :
  helpers.all_digits ip = true -> Spec.numeral_scale ip = 0.
Proof.
  induction ip as [|c ip IH]; [reflexivity|].
  cbn [helpers.all_digits]. intros H. apply andb_prop in H as [Hc Hs].
  cbn [Spec.numeral_scale]. rewrite (digit_not_point c Hc). apply IH, Hs.
Qed.

(** [float()] accepts a run exactly when it is a decimal numeral, and
    reads the numeral's digits and scale. *)
Lemma float_parse_run (run : string) :
  Spec.all_chars Spec.price_char run = true ->
  (Spec.valid_decimal_numeral run ->
   helpers.float_parse run
   = Some (Spec.numeral_digits run 0%Z, Spec.numeral_scale run))
  /\ (~ Spec.valid_decimal_numeral run -> helpers.float_parse run = None).
Proof.
  intros Hall. pose proof (split_point_run run Hall) as Hsp.
  unfold helpers.float_parse, Spec.valid_decimal_numeral.
  destruct (helpers.split_point run) as [ip [fp|]].
  - destruct Hsp as (-> & Hip & Hfp).
    destruct (all_digits_facts ip Hip) as [Hip0 Hipv].
    rewrite count_point_app, string_length_app, Hip0. cbn [default from_option id].
    cbn [Spec.count_char String.length]. rewrite Ascii.eqb_refl.
    pose proof (all_digits_iff_no_point fp Hfp) as Hiff.
    rewrite Hip. cbn [andb].
    destruct (helpers.all_digits fp) eqn:Hfd.
    + destruct (all_digits_facts fp Hfd) as [Hfp0 Hfpv].
      rewrite Hfp0. cbn [andb].
      destruct (String.length ip + String.length fp =? 0)%nat eqn:Hlen.
      * apply Nat.eqb_eq in Hlen. split; [intros [_ H]; lia|reflexivity].
      * split; [|intros Hnv; apply Nat.eqb_neq in Hlen; exfalso; apply Hnv; lia].
        intros _. cbn [negb]. rewrite numeral_digits_app by exact Hip.
        cbn [Spec.numeral_digits]. rewrite Ascii.eqb_refl.
        rewrite Hfpv, digits_value_app, numeral_scale_app by exact Hip.
        reflexivity.
    + cbn [andb]. split; [|reflexivity].
      intros [Hle _]. assert (Spec.count_char "." fp = 0) as H0 by lia.
      apply Hiff in H0. congruence.
  - destruct Hsp as (-> & Hip).
    destruct (all_digits_facts ip Hip) as [Hip0 Hipv].
    rewrite Hip0, Hip. cbn [default from_option id helpers.all_digits String.length andb].
    rewrite Nat.add_0_r.
    destruct (String.length ip =? 0)%nat eqn:Hlen.
    + apply Nat.eqb_eq in Hlen. split; [intros [_ H]; lia|reflexivity].
    + apply Nat.eqb_neq in Hlen. split; [|intros Hnv; exfalso; apply Hnv; lia].
      intros _. cbn [negb]. rewrite Hipv, numeral_scale_digits by exact Hip.
      replace (ip +:+ EmptyString) with ip; [reflexivity|].
      clear. induction ip as [|c ip IH]; [reflexivity|].
      rewrite append_cons. congruence.
Qed.

Lemma valid_decimal_numeral_dec (run : string) :
  Spec.valid_decimal_numeral run \/ ~ Spec.valid_decimal_numeral run.
Proof. unfold Spec.valid_decimal_numeral. lia. Qed.

Lemma first_maximal_run_unique (s r1 r2 : string) :
  Spec.first_maximal_run s r1 -> Spec.first_maximal_run s r2 -> r1 = r2.
Proof.
  intros H1 H2. apply re_search_complete in H1, H2. congruence.
Qed.

(** C8. [extract_price s] is the float of the first maximal run of digits
    and points of [s]; it raises ValueError exactly when there is no such
    run or the run is not a decimal numeral; [extract_price "$29.99"] is
    the float 29.99. *)
Theorem C8_extract_price {F : PyFloat} (s : string) :
  (forall run, Spec.first_maximal_run s run ->
     (Spec.valid_decimal_numeral run ->
      helpers.extract_price s
      = Ok (float_of_decimal (Spec.numeral_digits run 0%Z) (Spec.numeral_scale run)))
     /\ (~ Spec.valid_decimal_numeral run ->
         raises ValueError (helpers.extract_price s)))
  /\ (raises ValueError (helpers.extract_price s)
      <-> (~ exists run, Spec.first_maximal_run s run)
          \/ (exists run, Spec.first_maximal_run s run
                          /\ ~ Spec.valid_decimal_numeral run))
  /\ ((exists e, helpers.extract_price s = Err e)
      -> raises ValueError (helpers.extract_price s))
  /\ helpers.extract_price "$29.99" = Ok (float_of_decimal 2999%Z 2).
Proof.
  assert (Hrun : forall run, Spec.first_maximal_run s run ->
     (Spec.valid_decimal_numeral run ->
      helpers.extract_price s
      = Ok (float_of_decimal (Spec.numeral_digits run 0%Z) (Spec.numeral_scale run)))
     /\ (~ Spec.valid_decimal_numeral run ->
         raises ValueError (helpers.extract_price s))).
  { intros run Hfirst.
    assert (Hall : Spec.all_chars Spec.price_char run = true)
      by (destruct Hfirst as (b & a & _ & _ & _ & Hall & _); exact Hall).
    apply re_search_complete in Hfirst.
    unfold helpers.extract_price, helpers.py_float. rewrite Hfirst.
    destruct (float_parse_run run Hall) as [Hv Hnv]. split.
    - intros Hvalid. rewrite (Hv Hvalid). reflexivity.
    - intros Hinvalid. rewrite (Hnv Hinvalid). eexists. reflexivity. }
  assert (Hnone : (~ exists run, Spec.first_maximal_run s run) ->
                  raises ValueError (helpers.extract_price s)).
  { intros Hno. apply re_search_none_iff in Hno.
    unfold helpers.extract_price. rewrite Hno. eexists. reflexivity. }
  assert (Hiff : raises ValueError (helpers.extract_price s)
      <-> (~ exists run, Spec.first_maximal_run s run)
          \/ (exists run, Spec.first_maximal_run s run
                          /\ ~ Spec.valid_decimal_numeral run)).
  { split.
    - intros [msg Hraise].
      destruct (helpers.re_search s) as [run|] eqn:E.
      + right. exists run. apply re_search_sound in E. split; [exact E|].
        intros Hvalid. destruct (Hrun run E) as [Hok _].
        rewrite (Hok Hvalid) in Hraise. discriminate.
      + left. apply re_search_none_iff, E.
    - intros [Hno|(run & Hfirst & Hinvalid)].
      + apply Hnone, Hno.
      + apply (Hrun run Hfirst), Hinvalid. }
  split; [exact Hrun|]. split; [exact Hiff|]. split; [|reflexivity].
  intros [e He]. apply Hiff.
  destruct (helpers.re_search s) as [run|] eqn:E.
  - right. exists run. apply re_search_sound in E. split; [exact E|].
    intros Hvalid. destruct (Hrun run E) as [Hok _].
    rewrite (Hok Hvalid) in He. discriminate.
  - left. apply re_search_none_iff, E.
Qed.

Lemma C8_extract_price_witness :
  helpers.extract_price (F := Sim.cents) "Item total: $29.99" = Ok 2999%Z
  /\ raises ValueError (helpers.extract_price (F := Sim.cents) "Total: $1.2.3")
  /\ raises ValueError (helpers.extract_price (F := Sim.cents) "no price").
Proof.
  split; [|split].
  - refine (proj1 (proj1 (C8_extract_price (F := Sim.cents) "Item total: $29.99")
                     "29.99" _) _).
    + exists "Item total: $", EmptyString. repeat split. discriminate.
    + split; cbn; lia.
  - refine (proj2 (proj1 (C8_extract_price (F := Sim.cents) "Total: $1.2.3")
                     "1.2.3" _) _).
    + exists "Total: $", EmptyString. repeat split. discriminate.
    + intros [H _]. cbn in H. lia.
  - apply (proj1 (proj2 (C8_extract_price (F := Sim.cents) "no price"))).
    left. apply re_search_none_iff. reflexivity.
Defined.

(** ** [sorted] on a strict total order *)

Lemma rev_reverse {A : Type} (l : list A) : rev l = reverse l.
Proof. apply rev_alt. Qed.

Section SortedFacts.
Context {A : Type} (ltb : A -> A -> bool).




Lemma insert_sorted_head (x : A) (l : list A) :
  HdRel (not_after ltb) x l -> insert_sorted ltb x l = x :: l.
Proof.
  destruct l as [|y l]; [reflexivity|].
  intros Hhd. apply HdRel_inv in Hhd. unfold not_after in Hhd.
  cbn [insert_sorted]. rewrite Hhd. reflexivity.
Qed.

Lemma sorted_fixpoint (l : list A) : Sorted (not_after ltb) l -> sorted ltb l = l.
Proof.
  induction 1 as [|x l Hs IH Hhd]; [reflexivity|].
  cbn [sorted]. rewrite IH. apply insert_sorted_head, Hhd.
Qed.

Hypothesis ltb_irrefl : forall x, ltb x x = false.
Hypothesis ltb_trans :
  forall x y z, ltb x y = true -> ltb y z = true -> ltb x z = true.
Hypothesis ltb_total : forall x y, ltb x y = true \/ x = y \/ ltb y x = true.

Lemma ltb_asym (x y : A) : ltb x y = true -> ltb y x = false.
Proof.
  intros Hxy. destruct (ltb y x) eqn:Hyx; [|reflexivity].
  rewrite <- (ltb_irrefl x). symmetry. eapply ltb_trans; eassumption.
Qed.

Lemma not_after_trans : Transitive (not_after ltb).
Proof.
  intros x y z Hxy Hyz. unfold not_after in *.
  destruct (ltb z x) eqn:Hzx; [|reflexivity].
  destruct (ltb_total x y) as [Hlt|[->|Hlt]]; [|congruence|congruence].
  rewrite (ltb_trans _ _ _ Hzx Hlt) in Hyz. discriminate.
Qed.

Lemma not_after_antisym : AntiSymm (=) (not_after ltb).
Proof.
  intros x y Hxy Hyx. unfold not_after in *.
  destruct (ltb_total x y) as [Hlt|[->|Hlt]]; congruence.
Qed.

Lemma insert_sorted_Sorted (x : A) (l : list A) :
  Sorted (not_after ltb) l -> Sorted (not_after ltb) (insert_sorted ltb x l).
Proof.
  induction 1 as [|y l Hs IH Hhd]; [repeat constructor|].
  cbn [insert_sorted]. destruct (ltb y x) eqn:Hyx.
  - constructor; [exact IH|].
    destruct l as [|z l].
    + repeat constructor. apply ltb_asym, Hyx.
    + cbn [insert_sorted]. destruct (ltb z x).
      * constructor. apply HdRel_inv in Hhd. exact Hhd.
      * constructor. apply ltb_asym, Hyx.
  - repeat constructor; assumption.
Qed.

Lemma sorted_Sorted (l : list A) : Sorted (not_after ltb) (sorted ltb l).
Proof.
  induction l as [|x l IH]; [constructor|].
  cbn [sorted]. apply insert_sorted_Sorted, IH.
Qed.

Lemma sorted_check_iff (l : list A) : l = sorted ltb l <-> Sorted (not_after ltb) l.
Proof.
  split.
  - intros ->. apply sorted_Sorted.
  - intros Hs. symmetry. apply sorted_fixpoint, Hs.
Qed.




Lemma sorted_reverse_Sorted (l : list A) :
  Sorted (flip (not_after ltb)) (sorted_reverse ltb l).
Proof.
  unfold sorted_reverse. rewrite rev_reverse.
  apply Sorted_reverse, sorted_Sorted.
Qed.

(** The descending check holds exactly for the lists in descending order. *)
Lemma sorted_reverse_check_iff (l : list A) :
  l = sorted_reverse ltb l <-> Sorted (flip (not_after ltb)) l.
Proof.
  split.
  - intros ->. apply sorted_reverse_Sorted.
  - intros Hs. unfold sorted_reverse.
    rewrite (sorted_fixpoint (rev l)); [symmetry; apply rev_involutive|].
    rewrite rev_reverse.
    apply (Sorted_reverse (flip (not_after ltb))) in Hs. exact Hs.
Qed.

End SortedFacts.

Lemma list_eqb_eq {A : Type} (eqb : A -> A -> bool)
    (eqb_eq : forall x y, eqb x y = true <-> x = y) (l1 l2 : list A) :
  list_eqb eqb l1 l2 = true <-> l1 = l2.
Proof.
  revert l2. induction l1 as [|x l1 IH]; intros [|y l2]; cbn [list_eqb];
    try (split; [discriminate|congruence]); [split; reflexivity|].
  rewrite andb_true_iff, eqb_eq, IH. split; [intros [-> ->]; reflexivity|].
  intros [= -> ->]. split; reflexivity.
Qed.

(** Strings compared by code points form a strict total order. *)
Lemma string_ltb_irrefl (x : string) : String.ltb x x = false.
Proof.
  unfold String.ltb.
  replace (String.compare x x) with Eq; [reflexivity|].
  symmetry. apply OrderedTypeEx.String_as_OT.cmp_eq. reflexivity.
Qed.

Lemma string_ltb_lt (x y : string) :
  String.ltb x y = true <-> OrderedTypeEx.String_as_OT.lt x y.
Proof.
  rewrite <- OrderedTypeEx.String_as_OT.cmp_lt.
  unfold String.ltb, OrderedTypeEx.String_as_OT.cmp.
  destruct (String.compare x y); split; congruence.
Qed.

Lemma string_ltb_trans (x y z : string) :
  String.ltb x y = true -> String.ltb y z = true -> String.ltb x z = true.
Proof.
  rewrite !string_ltb_lt. apply OrderedTypeEx.String_as_OT.lt_trans.
Qed.

Lemma string_ltb_total (x y : string) :
  String.ltb x y = true \/ x = y \/ String.ltb y x = true.
Proof.
  unfold String.ltb. rewrite (String.compare_antisym y x).
  destruct (String.compare x y) eqn:E; cbn; auto.
  right. left. apply String.compare_eq_iff, E.
Qed.

(** ** Assertions *)

Lemma py_assert_ok (cond : bool) (msg : string) :
  py_assert cond msg = Ok tt <-> cond = true.
Proof. destruct cond; cbn; split; congruence. Qed.


Lemma py_assert_cases (cond : bool) (msg : string) :
  py_assert cond msg = Ok tt \/ raises AssertionError (py_assert cond msg).
Proof. destruct cond; [left|right; exists msg]; reflexivity. Qed.

Lemma cents_order : FloatOrder Sim.cents.
Proof.
  constructor; cbn.
  - intros x y. apply Z.eqb_eq.
  - intros x. apply Z.ltb_irrefl.
  - intros x y z. rewrite !Z.ltb_lt. lia.
  - intros x y. rewrite !Z.ltb_lt. lia.
Qed.

Section SortAssertions.
Context {Page : Type} {D : Driver Page} {F : PyFloat} (HF : FloatOrder F).
Variables (self : PageObject) (p : Page).
Variables (names : list string) (prices : list float).
Hypothesis Hnames : InventoryPage.get_product_names self p = Ok names.
Hypothesis Hprices : InventoryPage.get_product_prices self p = Ok prices.

Lemma name_asc_check :
  InventoryPage.expect_products_sorted_by_name_asc self p = Ok tt
  <-> names = sorted String.ltb names.
Proof.
  unfold InventoryPage.expect_products_sorted_by_name_asc.
  rewrite Hnames. cbn [rbind].
  rewrite py_assert_ok. apply list_eqb_eq, String.eqb_eq.
Qed.

Lemma name_desc_check :
  InventoryPage.expect_products_sorted_by_name_desc self p = Ok tt
  <-> names = sorted_reverse String.ltb names.
Proof.
  unfold InventoryPage.expect_products_sorted_by_name_desc.
  rewrite Hnames. cbn [rbind].
  rewrite py_assert_ok. apply list_eqb_eq, String.eqb_eq.
Qed.

Lemma price_asc_check :
  InventoryPage.expect_products_sorted_by_price_asc self p = Ok tt
  <-> prices = sorted float_ltb prices.
Proof.
  unfold InventoryPage.expect_products_sorted_by_price_asc.
  rewrite Hprices. cbn [rbind].
  rewrite py_assert_ok. apply list_eqb_eq, (float_eqb_eq F HF).
Qed.

Lemma price_desc_check :
  InventoryPage.expect_products_sorted_by_price_desc self p = Ok tt
  <-> prices = sorted_reverse float_ltb prices.
Proof.
  unfold InventoryPage.expect_products_sorted_by_price_desc.
  rewrite Hprices. cbn [rbind].
  rewrite py_assert_ok. apply list_eqb_eq, (float_eqb_eq F HF).
Qed.


End SortAssertions.





(** ** State queries *)

(** C3, the claim as written fails: on a page where nothing matches the
    selector, only the element count and the visibility query answer with
    a default; the other queries raise the driver's timeout. *)
Lemma C3_absent_element_raises :
  let p := Sim.empty_page in
  let sel := ".summary_total_label" in
  drv_count (Css sel) p = Ok 0
  /\ BasePage.get_element_count Sim.self0 sel p = Ok 0
  /\ BasePage.is_visible Sim.self0 sel p = Ok false
  /\ BasePage.get_text Sim.self0 sel p <> Ok ""
  /\ BasePage.get_input_value Sim.self0 sel p <> Ok ""
  /\ BasePage.is_enabled Sim.self0 sel p <> Ok false
  /\ BasePage.is_checked Sim.self0 sel p <> Ok false
  /\ BasePage.get_attribute Sim.self0 sel "value" p <> Ok None
  /\ raises TimeoutError (BasePage.get_input_value Sim.self0 sel p).
Proof.
  cbn. repeat split; try discriminate. eexists. reflexivity.
Qed.

Lemma sim_absent_element (self : PageObject) (selector : string) (q : Sim.SimPage) :
  drv_count (Css selector) q = Ok 0 ->
  BasePage.get_element_count self selector q = Ok 0
  /\ BasePage.is_visible self selector q = Ok false
  /\ BasePage.get_text self selector q = Err Sim.timeout_error
  /\ BasePage.get_input_value self selector q = Err Sim.timeout_error
  /\ BasePage.is_enabled self selector q = Err Sim.timeout_error
  /\ BasePage.is_checked self selector q = Err Sim.timeout_error
  /\ (forall attribute,
        BasePage.get_attribute self selector attribute q = Err Sim.timeout_error).
Proof.
  intros Hcount.
  assert (Hlen : Sim.resolve (Css selector) (Sim.sp_dom q) = []).
  { apply length_zero_iff_nil. cbn [drv_count Sim.driver] in Hcount.
    unfold Sim.count in Hcount. congruence. }
  unfold BasePage.get_element_count, helpers.get_element_count, BasePage.is_visible,
    BasePage.get_text, BasePage.get_input_value, BasePage.is_enabled,
    BasePage.is_checked, BasePage.get_attribute.
  cbn [drv_count drv_is_visible drv_text_content drv_input_value drv_is_enabled
       drv_is_checked drv_get_attribute Sim.driver].
  unfold Sim.count, Sim.is_visible, Sim.text_content, Sim.input_value,
    Sim.is_enabled, Sim.is_checked, Sim.get_attribute, Sim.the_element.
  rewrite Hlen. repeat split.
Qed.

(** C3, amended. Each state query hands on what the driver's call gives:
    zero from the count and false from the visibility query when nothing
    matches, and the driver's failure for the others.  [get_text] alone
    substitutes a default, the empty string, when the text content is
    [None] or empty; [get_attribute] returns [None] when the driver reports
    the attribute absent.  On the simulated browser, where a call that
    needs its element times out when there is none, a selector without a
    match gives count 0, visibility false, and a timeout error from every
    other query. *)
Theorem C3_state_queries
    {Page : Type} {D : Driver Page} (self : PageObject) (selector : string) (p : Page) :
  BasePage.get_element_count self selector p = drv_count (Css selector) p
  /\ BasePage.is_visible self selector p = drv_is_visible (Css selector) p
  /\ BasePage.is_enabled self selector p = drv_is_enabled (Css selector) p
  /\ BasePage.is_checked self selector p = drv_is_checked (Css selector) p
  /\ BasePage.get_input_value self selector p = drv_input_value (Css selector) p
  /\ (forall attribute,
        BasePage.get_attribute self selector attribute p
        = drv_get_attribute (Css selector) attribute p)
  /\ (forall e, drv_text_content (Css selector) p = Err e ->
                BasePage.get_text self selector p = Err e)
  /\ (drv_text_content (Css selector) p = Ok None ->
      BasePage.get_text self selector p = Ok "")
  /\ (forall t, drv_text_content (Css selector) p = Ok (Some t) ->
                BasePage.get_text self selector p = Ok t)
  /\ (drv_count (Css selector) p = Ok 0 ->
      BasePage.get_element_count self selector p = Ok 0)
  /\ (drv_is_visible (Css selector) p = Ok false ->
      BasePage.is_visible self selector p = Ok false)
  /\ (forall q : Sim.SimPage,
        drv_count (Css selector) q = Ok 0 ->
        BasePage.get_element_count self selector q = Ok 0
        /\ BasePage.is_visible self selector q = Ok false
        /\ BasePage.get_text self selector q = Err Sim.timeout_error
        /\ BasePage.get_input_value self selector q = Err Sim.timeout_error
        /\ BasePage.is_enabled self selector q = Err Sim.timeout_error
        /\ BasePage.is_checked self selector q = Err Sim.timeout_error
        /\ (forall attribute,
              BasePage.get_attribute self selector attribute q
              = Err Sim.timeout_error)).
Proof.
  unfold BasePage.get_text, BasePage.get_element_count, BasePage.is_visible,
    helpers.get_element_count.
  do 6 (split; [reflexivity|]).
  split; [intros e H; rewrite H; reflexivity|].
  split; [intros H; rewrite H; reflexivity|].
  split; [intros [|c t] H; rewrite H; reflexivity|].
  split; [intros H; rewrite H; reflexivity|].
  split; [intros H; rewrite H; reflexivity|].
  apply sim_absent_element.
Qed.

Lemma C3_state_queries_witness :
  BasePage.get_element_count Sim.self0 ".cart_item" Sim.empty_page = Ok 0
  /\ BasePage.is_visible Sim.self0 ".cart_item" Sim.empty_page = Ok false
  /\ BasePage.get_text Sim.self0 ".cart_item" Sim.empty_page = Err Sim.timeout_error.
Proof.
  pose proof (C3_state_queries Sim.self0 ".cart_item" Sim.empty_page) as H.
  split; [apply H; reflexivity|].
  split; [apply H; reflexivity|].
  apply H. reflexivity.
Defined.

(** ** Navigation *)

(** C6. [navigate path] composes the URL from the base URL of the settings
    and the path (the base URL alone for the empty path, otherwise base
    URL, a slash and the path), loads it, and then waits for the network to
    be idle with the timeout of the settings; when the load succeeds the
    outcome is that of the wait, so a wait that times out makes [navigate]
    fail with that timeout error. *)
Theorem C6_navigate
    {Page : Type} {D : Driver Page} (st : settings.Settings) (path : string) (p : Page) :
  let self := BasePage.init st in
  let url := BasePage.navigate_url self path in
  (path = "" -> url = settings.BASE_URL st)
  /\ (path <> "" -> url = settings.BASE_URL st +:+ "/" +:+ path)
  /\ (forall e p1, drv_goto url p = (Err e, p1) ->
                   BasePage.navigate self path p = (Err e, p1))
  /\ (forall p1, drv_goto url p = (Ok tt, p1) ->
        BasePage.navigate self path p
        = drv_wait_for_load_state "networkidle" (settings.TIMEOUT st) p1)
  /\ (forall p1 p2 msg,
        drv_goto url p = (Ok tt, p1) ->
        drv_wait_for_load_state "networkidle" (settings.TIMEOUT st) p1
        = (Err (Exn TimeoutError msg), p2) ->
        BasePage.navigate self path p = (Err (Exn TimeoutError msg), p2))
  /\ (forall p1 p2,
        drv_goto url p = (Ok tt, p1) ->
        drv_wait_for_load_state "networkidle" (settings.TIMEOUT st) p1 = (Ok tt, p2) ->
        BasePage.navigate self path p = (Ok tt, p2)).
Proof.
  intros self url.
  assert (Hnav : forall p1, drv_goto url p = (Ok tt, p1) ->
        BasePage.navigate self path p
        = drv_wait_for_load_state "networkidle" (settings.TIMEOUT st) p1).
  { intros p1 Hgoto. unfold BasePage.navigate, bind. fold url. rewrite Hgoto.
    reflexivity. }
  split; [intros ->; reflexivity|].
  split; [intros Hne; destruct path; [congruence|reflexivity]|].
  split.
  { intros e p1 Hgoto. unfold BasePage.navigate, bind. fold url.
    rewrite Hgoto. reflexivity. }
  split; [exact Hnav|].
  split.
  - intros p1 p2 msg Hgoto Hwait. rewrite (Hnav p1 Hgoto). exact Hwait.
  - intros p1 p2 Hgoto Hwait. rewrite (Hnav p1 Hgoto). exact Hwait.
Qed.

Lemma C6_navigate_witness :
  BasePage.navigate_url (BasePage.init Sim.default_settings) "cart.html"
  = "https://www.saucedemo.com/cart.html"
  /\ fst (BasePage.navigate (BasePage.init Sim.default_settings) "cart.html" Sim.busy_site)
     = Err (Exn TimeoutError "Timeout exceeded while waiting for load state")
  /\ fst (BasePage.navigate (BasePage.init Sim.default_settings) "inventory.html" Sim.shop)
     = Ok tt.
Proof.
  pose proof (C6_navigate Sim.default_settings "cart.html" Sim.busy_site) as Hbusy.
  pose proof (C6_navigate Sim.default_settings "inventory.html" Sim.shop) as Hshop.
  cbv zeta in Hbusy, Hshop.
  destruct Hbusy as (_ & Hurl & _ & _ & Htimeout & _).
  destruct Hshop as (_ & _ & _ & _ & _ & Hok).
  split; [apply Hurl; discriminate|]. split.
  - erewrite Htimeout; [reflexivity|reflexivity|reflexivity].
  - erewrite Hok; [reflexivity|reflexivity|reflexivity].
Defined.

(** ** [int] reads back what [str] writes *)

Lemma digit_char_facts (d : nat) :
  d < 10 ->
  PyStr.is_digit (ascii_of_nat (48 + d)) = true
  /\ PyStr.digit_val (ascii_of_nat (48 + d)) = Z.of_nat d
  /\ PyStr.is_space (ascii_of_nat (48 + d)) = false.
Proof.
  intros Hd.
  do 10 (destruct d as [|d]; [repeat split; reflexivity|]). lia.
Qed.

Lemma last_digit_facts (n : Z) :
  (0 <= n)%Z ->
  let c := ascii_of_nat (48 + Z.to_nat (n mod 10)) in
  PyStr.is_digit c = true
  /\ PyStr.digit_val c = (n mod 10)%Z
  /\ PyStr.is_space c = false.
Proof.
  intros Hn c. subst c.
  pose proof (Z.mod_pos_bound n 10 ltac:(lia)) as Hm.
  destruct (digit_char_facts (Z.to_nat (n mod 10)) ltac:(lia)) as (H1 & H2 & H3).
  repeat split; [exact H1| |exact H3]. rewrite H2. lia.
Qed.

Lemma digits_of_pos_fuel_S (fuel : nat) (n : Z) (acc : string) :
  PyStr.digits_of_pos_fuel (S fuel) n acc
  = if (n <? 10)%Z
    then String (ascii_of_nat (48 + Z.to_nat (n mod 10))) acc
    else PyStr.digits_of_pos_fuel fuel (n / 10)
           (String (ascii_of_nat (48 + Z.to_nat (n mod 10))) acc).
Proof. reflexivity. Qed.

Lemma digits_of_pos_fuel_parse (fuel : nat) :
  forall (n : Z) (acc : string) (b : bool),
    (0 <= n < 2 ^ Z.of_nat (S fuel))%Z ->
    PyStr.int_digits (PyStr.digits_of_pos_fuel (S fuel) n acc) 0%Z b
    = PyStr.int_digits acc n true.
Proof.
  induction fuel as [|fuel IH]; intros n acc b Hn;
    destruct (last_digit_facts n ltac:(lia)) as (Hd & Hv & _).
  - rewrite digits_of_pos_fuel_S.
    assert (n < 10)%Z as Hlt by (cbn in Hn; lia).
    apply Z.ltb_lt in Hlt. rewrite Hlt. cbn [PyStr.int_digits].
    rewrite Hd, Hv. f_equal. apply Z.ltb_lt in Hlt.
    rewrite Z.mod_small by lia. lia.
  - rewrite (digits_of_pos_fuel_S (S fuel)).
    destruct (n <? 10)%Z eqn:Hlt.
    + cbn [PyStr.int_digits]. rewrite Hd, Hv. f_equal.
      apply Z.ltb_lt in Hlt. rewrite Z.mod_small by lia. lia.
    + apply Z.ltb_ge in Hlt. rewrite IH.
      * cbn [PyStr.int_digits]. rewrite Hd, Hv. f_equal.
        pose proof (Z.div_mod n 10 ltac:(lia)). lia.
      * split; [apply Z.div_pos; lia|].
        apply Z.div_lt_upper_bound; [lia|].
        replace (Z.of_nat (S (S fuel))) with (Z.succ (Z.of_nat (S fuel))) in Hn by lia.
        rewrite Z.pow_succ_r in Hn by lia. lia.
Qed.

Lemma digits_of_pos_fuel_no_space (fuel : nat) :
  forall (n : Z) (acc : string),
    (0 <= n)%Z ->
    Spec.all_chars (fun c => negb (PyStr.is_space c)) acc = true ->
    Spec.all_chars (fun c => negb (PyStr.is_space c))
      (PyStr.digits_of_pos_fuel fuel n acc) = true.
Proof.
  induction fuel as [|fuel IH]; intros n acc Hn Hacc; [exact Hacc|].
  destruct (last_digit_facts n Hn) as (_ & _ & Hs).
  cbn [PyStr.digits_of_pos_fuel].
  assert (Hacc' : Spec.all_chars (fun c => negb (PyStr.is_space c))
                    (String (ascii_of_nat (48 + Z.to_nat (n mod 10))) acc) = true)
    by (cbn [Spec.all_chars]; rewrite Hs, Hacc; reflexivity).
  destruct (n <? 10)%Z; [exact Hacc'|].
  apply IH; [apply Z.div_pos; lia|exact Hacc'].
Qed.

Lemma lstrip_no_space (s : string) :
  Spec.all_chars (fun c => negb (PyStr.is_space c)) s = true -> PyStr.lstrip s = s.
Proof.
  destruct s as [|c s]; [reflexivity|]. cbn [Spec.all_chars PyStr.lstrip].
  intros H. apply andb_prop in H as [Hc _]. apply negb_true_iff in Hc.
  rewrite Hc. reflexivity.
Qed.

Lemma rstrip_no_space (s : string) :
  Spec.all_chars (fun c => negb (PyStr.is_space c)) s = true -> PyStr.rstrip s = s.
Proof.
  induction s as [|c s IH]; [reflexivity|]. cbn [Spec.all_chars PyStr.rstrip].
  intros H. apply andb_prop in H as [Hc Hs]. apply negb_true_iff in Hc.
  rewrite (IH Hs), Hc. destruct s; reflexivity.
Qed.

Lemma strip_no_space (s : string) :
  Spec.all_chars (fun c => negb (PyStr.is_space c)) s = true -> PyStr.strip s = s.
Proof.
  intros H. unfold PyStr.strip. rewrite (lstrip_no_space s H). apply rstrip_no_space, H.
Qed.

Lemma str_of_nonneg_parse (n : Z) :
  (0 <= n)%Z -> PyStr.int_unsigned (PyStr.str_of_nonneg n) = Some n.
Proof.
  intros Hn. unfold PyStr.int_unsigned, PyStr.str_of_nonneg.
  rewrite digits_of_pos_fuel_parse; [reflexivity|].
  split; [exact Hn|].
  destruct (Z.eq_dec n 0%Z) as [->|Hne]; [cbn; lia|].
  rewrite Nat2Z.inj_succ, Z2Nat.id by apply Z.log2_nonneg.
  apply Z.log2_spec. lia.
Qed.

Lemma str_of_nonneg_head (n : Z) :
  (0 <= n)%Z ->
  exists c s, PyStr.str_of_nonneg n = String c s /\ PyStr.is_digit c = true.
Proof.
  intros Hn. unfold PyStr.str_of_nonneg.
  generalize (Z.to_nat (Z.log2 n)) as fuel. generalize EmptyString as acc.
  intros acc fuel. revert n Hn acc.
  induction fuel as [|fuel IH]; intros n Hn acc;
    destruct (last_digit_facts n Hn) as (Hd & _ & _);
    cbn [PyStr.digits_of_pos_fuel].
  - destruct (n <? 10)%Z; eauto.
  - destruct (n <? 10)%Z; [eauto|].
    apply IH. apply Z.div_pos; lia.
Qed.

Lemma int_parse_digit_head (c : ascii) (s : string) :
  PyStr.is_digit c = true ->
  PyStr.strip (String c s) = String c s ->
  PyStr.int_parse (String c s) = PyStr.int_unsigned (String c s).
Proof.
  intros Hd Hs. unfold PyStr.int_parse. rewrite Hs.
  destruct c as [[] [] [] [] [] [] [] []]; try reflexivity;
    vm_compute in Hd; discriminate.
Qed.

(** [int(str(n))] is [n]. *)
Lemma int_str_of_int (n : Z) : PyStr.int (PyStr.str_of_int n) = Ok n.
Proof.
  unfold PyStr.int, PyStr.str_of_int.
  destruct (n <? 0)%Z eqn:Hneg.
  - apply Z.ltb_lt in Hneg.
    assert (Hsp : Spec.all_chars (fun c => negb (PyStr.is_space c))
                    (String "-" (PyStr.str_of_nonneg (- n))) = true).
    { cbn [Spec.all_chars]. unfold PyStr.str_of_nonneg.
      rewrite digits_of_pos_fuel_no_space; [reflexivity|lia|reflexivity]. }
    unfold PyStr.int_parse. rewrite (strip_no_space _ Hsp).
    rewrite str_of_nonneg_parse by lia. cbn [option_map].
    rewrite Z.opp_involutive. reflexivity.
  - apply Z.ltb_ge in Hneg.
    destruct (str_of_nonneg_head n Hneg) as (c & s & Hcs & Hd).
    assert (Hsp : Spec.all_chars (fun c => negb (PyStr.is_space c))
                    (PyStr.str_of_nonneg n) = true).
    { unfold PyStr.str_of_nonneg.
      apply digits_of_pos_fuel_no_space; [lia|reflexivity]. }
    pose proof (str_of_nonneg_parse n Hneg) as Hparse.
    rewrite Hcs in *. rewrite int_parse_digit_head; [|exact Hd|].
    + rewrite Hparse. reflexivity.
    + apply strip_no_space, Hsp.
Qed.

(** ** The cart badge *)

Section CartBadge.
Context {Page : Type} {D : Driver Page}.
Variables (self : PageObject) (p : Page).

Lemma get_cart_count_hidden :
  drv_is_visible (Css ".shopping_cart_badge") p = Ok false ->
  InventoryPage.get_cart_count self p = Ok 0%Z.
Proof.
  unfold InventoryPage.get_cart_count, BasePage.is_visible,
    InventoryPage.locators.CART_BADGE.
  intros ->. reflexivity.
Qed.

Lemma get_cart_count_text (t : string) :
  drv_is_visible (Css ".shopping_cart_badge") p = Ok true ->
  drv_text_content (Css ".shopping_cart_badge") p = Ok (Some t) ->
  InventoryPage.get_cart_count self p
  = if String.eqb t "" then Ok 0%Z else PyStr.int t.
Proof.
  unfold InventoryPage.get_cart_count, BasePage.is_visible, BasePage.get_text,
    InventoryPage.locators.CART_BADGE.
  intros -> ->. destruct t; reflexivity.
Qed.

Lemma get_cart_count_rendered (n : Z) :
  drv_is_visible (Css ".shopping_cart_badge") p = Ok true ->
  drv_text_content (Css ".shopping_cart_badge") p = Ok (Some (PyStr.str_of_int n)) ->
  InventoryPage.get_cart_count self p = Ok n.
Proof.
  intros Hv Ht. rewrite (get_cart_count_text _ Hv Ht).
  pose proof (int_str_of_int n) as Hint.
  destruct (PyStr.str_of_int n) as [|c s] eqn:E; [|exact Hint].
  vm_compute in Hint. discriminate.
Qed.

End CartBadge.



(** ** Emptying the cart *)

Lemma remove_item_by_index_first
    {Page : Type} {D : Driver Page} (self : PageObject) (q : Page) (k : nat) :
  drv_count (Css "[data-test^='remove']") q = Ok (S k) ->
  CartPage.remove_item_by_index self 0 q
  = bind (drv_click (Nth (Css "[data-test^='remove']") 0)) (fun _ => ret self) q.
Proof.
  intros Hcount.
  unfold CartPage.remove_item_by_index, bind, query, locator_all,
    CartPage.locators.REMOVE_BTN.
  rewrite Hcount. reflexivity.
Qed.

Lemma remove_item_by_index_none
    {Page : Type} {D : Driver Page} (self : PageObject) (q : Page) :
  drv_count (Css "[data-test^='remove']") q = Ok 0 ->
  CartPage.remove_item_by_index self 0 q
  = (Err (Exn IndexError "Item index 0 out of range"), q).
Proof.
  intros Hcount.
  unfold CartPage.remove_item_by_index, bind, query, locator_all,
    CartPage.locators.REMOVE_BTN.
  rewrite Hcount. reflexivity.
Qed.

Section RemoveAll.
Context {Page : Type} {D : Driver Page}.
Variable Inv : Page -> Prop.
Variable self : PageObject.

(** Each removal at index 0 succeeds and lowers the item count by one. *)
Hypothesis remove_lowers_count :
  forall q m,
    Inv q ->
    CartPage.get_cart_items_count self q = Ok (S m) ->
    exists q',
      CartPage.remove_item_by_index self 0 q = (Ok self, q')
      /\ Inv q'
      /\ CartPage.get_cart_items_count self q' = Ok m.

Lemma remove_all_items_run (n : nat) :
  forall p,
    Inv p ->
    CartPage.get_cart_items_count self p = Ok n ->
    let p' := page_after n (CartPage.remove_item_by_index self 0) p in
    (forall fuel, n < fuel ->
                  CartPage.remove_all_items fuel self p = Some (Ok self, p'))
    /\ (forall fuel, fuel <= n -> CartPage.remove_all_items fuel self p = None)
    /\ Inv p'
    /\ CartPage.get_cart_items_count self p' = Ok 0.
Proof.
  induction n as [|n IH]; intros p Hinv Hcount; cbn zeta.
  - cbn [page_after]. repeat split; try assumption.
    + intros [|fuel] Hfuel; [lia|].
      cbn [CartPage.remove_all_items]. rewrite Hcount. reflexivity.
    + intros fuel Hfuel. assert (fuel = 0) as -> by lia. reflexivity.
  - destruct (remove_lowers_count p n Hinv Hcount) as (q & Hrem & Hq & Hcq).
    destruct (IH q Hq Hcq) as (Hrun & Hout & Hinv' & Hzero).
    cbn [page_after]. rewrite Hrem. cbn [snd]. repeat split; try assumption.
    + intros [|fuel] Hfuel; [lia|].
      cbn [CartPage.remove_all_items]. rewrite Hcount, Hrem.
      apply Hrun. lia.
    + intros [|fuel] Hfuel; [reflexivity|].
      cbn [CartPage.remove_all_items]. rewrite Hcount, Hrem.
      apply Hout. lia.
Qed.

End RemoveAll.

(** C10. When every removal at index 0 lowers the displayed item count by
    one, [remove_all_items] on a cart of [n] items ends after [n] removals
    (the loop condition is tested [n + 1] times), returns the page object
    it was called on, and leaves an item count of 0.  Every removal is
    [remove_item_by_index 0], which clicks the first remove button.  The
    precondition is asked of the pages of an invariant [Inv] that holds of
    the start page and that removals keep, such as the pages the loop can
    reach. *)
Theorem C10_remove_all_items
    {Page : Type} {D : Driver Page} (Inv : Page -> Prop)
    (self : PageObject) (p : Page) (n : nat)
    (Hinv : Inv p)
    (Hcount : CartPage.get_cart_items_count self p = Ok n)
    (Hremove : forall q m,
        Inv q ->
        CartPage.get_cart_items_count self q = Ok (S m) ->
        exists q',
          CartPage.remove_item_by_index self 0 q = (Ok self, q')
          /\ Inv q'
          /\ CartPage.get_cart_items_count self q' = Ok m) :
  let p' := page_after n (CartPage.remove_item_by_index self 0) p in
  (forall fuel, n < fuel ->
                CartPage.remove_all_items fuel self p = Some (Ok self, p'))
  /\ (forall fuel, fuel <= n -> CartPage.remove_all_items fuel self p = None)
  /\ CartPage.get_cart_items_count self p' = Ok 0
  /\ (forall q k,
        drv_count (Css "[data-test^='remove']") q = Ok (S k) ->
        CartPage.remove_item_by_index self 0 q
        = bind (drv_click (Nth (Css "[data-test^='remove']") 0))
            (fun _ => ret self) q).
Proof.
  destruct (remove_all_items_run Inv self Hremove n p Hinv Hcount)
    as (Hrun & Hout & _ & Hzero).
  repeat split; try assumption.
  intros q k. apply remove_item_by_index_first.
Qed.

Lemma C10_remove_all_items_witness :
  CartPage.remove_all_items 3 Sim.self0 Sim.cart2
  = Some (Ok Sim.self0, Sim.static_page [])
  /\ CartPage.get_cart_items_count Sim.self0 (Sim.static_page []) = Ok 0.
Proof.
  pose (one := Sim.cart_of [(2, "Sauce Labs Bike Light", "sauce-labs-bike-light")]%nat).
  pose (Inv := fun q => q = Sim.cart2 \/ q = one \/ q = Sim.static_page []).
  assert (Hinv : Inv Sim.cart2) by (left; reflexivity).
  assert (Hcount : CartPage.get_cart_items_count Sim.self0 Sim.cart2 = Ok 2)
    by reflexivity.
  assert (Hremove : forall q m,
             Inv q ->
             CartPage.get_cart_items_count Sim.self0 q = Ok (S m) ->
             exists q',
               CartPage.remove_item_by_index Sim.self0 0 q = (Ok Sim.self0, q')
               /\ Inv q'
               /\ CartPage.get_cart_items_count Sim.self0 q' = Ok m).
  { intros q m [-> | [-> | ->]] Hc.
    - exists one. split; [reflexivity|]. split; [right; left; reflexivity|].
      vm_compute in Hc. injection Hc as <-. reflexivity.
    - exists (Sim.static_page []). split; [reflexivity|].
      split; [right; right; reflexivity|].
      vm_compute in Hc. injection Hc as <-. reflexivity.
    - vm_compute in Hc. discriminate. }
  pose proof (C10_remove_all_items Inv Sim.self0 Sim.cart2 2 Hinv Hcount Hremove)
    as H.
  cbv zeta in H. destruct H as (Hrun & _ & Hzero & _).
  split; [apply (Hrun 3); lia|exact Hzero].
Defined.

(** ** Adding and removing one product

    What the cart count does after the two clicks is the application's
    doing.  The lemma below is the page objects' share: when the badge
    shows the size of the cart, the add control of a product adds one item
    and its remove control takes one away, then adding and removing the
    product leaves the count that [get_cart_count] reads as it was. *)

Section AddThenRemove.
Context {Page : Type} {D : Driver Page}.
Variable cart_size : Page -> nat.
Variable product_name : string.

Hypothesis badge_shows_cart_size :
  forall q,
    match cart_size q with
    | O => drv_is_visible (Css ".shopping_cart_badge") q = Ok false
    | S k =>
        drv_is_visible (Css ".shopping_cart_badge") q = Ok true
        /\ drv_text_content (Css ".shopping_cart_badge") q
           = Ok (Some (PyStr.str_of_int (Z.of_nat (S k))))
    end.

Hypothesis add_control_adds_one :
  forall q q',
    drv_click (Css ("[data-test='add-to-cart-" +:+ Spec.derive product_name +:+ "']")) q
    = (Ok tt, q') ->
    cart_size q' = S (cart_size q).

Hypothesis remove_control_removes_one :
  forall q q',
    drv_click (Css ("[data-test='remove-" +:+ Spec.derive product_name +:+ "']")) q
    = (Ok tt, q') ->
    S (cart_size q') = cart_size q.

Lemma get_cart_count_cart_size (self : PageObject) (q : Page) :
  InventoryPage.get_cart_count self q = Ok (Z.of_nat (cart_size q)).
Proof.
  pose proof (badge_shows_cart_size q) as Hbadge.
  destruct (cart_size q) as [|k].
  - apply (get_cart_count_hidden self q Hbadge).
  - destruct Hbadge as [Hv Ht]. apply (get_cart_count_rendered self q _ Hv Ht).
Qed.

Lemma add_then_remove_restores_count (self : PageObject) (p p1 p2 : Page) :
  InventoryPage.add_product_to_cart_by_name self product_name p = (Ok self, p1) ->
  InventoryPage.remove_product_from_cart_by_name self product_name p1 = (Ok self, p2) ->
  InventoryPage.get_cart_count self p2 = InventoryPage.get_cart_count self p.
Proof.
  unfold InventoryPage.add_product_to_cart_by_name,
    InventoryPage.remove_product_from_cart_by_name, BasePage.click, bind, ret.
  rewrite data_test_name_derive. intros Hadd Hrem.
  destruct (drv_click _ p) as [[[]|e] q1] eqn:Eadd; [|discriminate].
  injection Hadd as <-.
  destruct (drv_click _ q1) as [[[]|e] q2] eqn:Erem; [|discriminate].
  injection Hrem as <-.
  rewrite !get_cart_count_cart_size.
  apply add_control_adds_one in Eadd. apply remove_control_removes_one in Erem.
  do 2 f_equal. lia.
Qed.

End AddThenRemove.


(** * Further properties *)

(** ** The derived identifier *)
















(** ** Buttons chosen by index *)

Lemma nth_error_locators (l : Locator) (n j : nat) :
  j < n -> nth_error (map (Nth l) (seq 0 n)) j = Some (Nth l j).
Proof.
  intros Hj. rewrite nth_error_map, nth_error_seq.
  destruct (Nat.ltb_spec j n); [reflexivity|lia].
Qed.

Lemma py_index_locators (l : Locator) (n : nat) (index : Z) :
  py_index (map (Nth l) (seq 0 n)) index
  = if (index <? 0)%Z
    then if (- Z.of_nat n <=? index)%Z
         then Ok (Nth l (Z.to_nat (Z.of_nat n + index)))
         else Err (Exn IndexError "list index out of range")
    else if (index <? Z.of_nat n)%Z
         then Ok (Nth l (Z.to_nat index))
         else Err (Exn IndexError "list index out of range").
Proof.
  unfold py_index. rewrite length_map, length_seq.
  destruct (index <? 0)%Z eqn:Hneg.
  - apply Z.ltb_lt in Hneg.
    destruct (- Z.of_nat n <=? index)%Z eqn:Hlow.
    + apply Z.leb_le in Hlow.
      replace ((0 <=? Z.of_nat n + index) && (Z.of_nat n + index <? Z.of_nat n))%Z
        with true by (symmetry; apply andb_true_iff; split;
                      [apply Z.leb_le|apply Z.ltb_lt]; lia).
      rewrite nth_error_locators by lia. reflexivity.
    + apply Z.leb_gt in Hlow.
      replace (0 <=? Z.of_nat n + index)%Z with false
        by (symmetry; apply Z.leb_gt; lia).
      reflexivity.
  - apply Z.ltb_ge in Hneg.
    destruct (index <? Z.of_nat n)%Z eqn:Hup.
    + apply Z.ltb_lt in Hup.
      replace (0 <=? index)%Z with true by (symmetry; apply Z.leb_le; lia).
      cbn [andb]. rewrite nth_error_locators by lia. reflexivity.
    + rewrite andb_false_r. reflexivity.
Qed.

Section ByIndex.
Context {Page : Type} {D : Driver Page}.
Variables (self : PageObject) (p : Page) (n : nat) (index : Z).

Lemma remove_item_by_index_outcome :
  drv_count (Css "[data-test^='remove']") p = Ok n ->
  CartPage.remove_item_by_index self index p
  = by_index_outcome self p n index "[data-test^='remove']" "Item".
Proof.
  intros Hcount.
  unfold CartPage.remove_item_by_index, by_index_outcome, bind, query, locator_all,
    raise, CartPage.locators.REMOVE_BTN.
  rewrite Hcount. cbn [rbind]. rewrite length_map, length_seq, py_index_locators.
  destruct (Z.ltb_spec index (Z.of_nat n)), (Z.leb_spec (Z.of_nat n) index);
    try lia; [|reflexivity].
  destruct (Z.ltb_spec index 0), (Z.leb_spec 0 index); try lia.
  - destruct (- Z.of_nat n <=? index)%Z; reflexivity.
  - reflexivity.
Qed.

Lemma add_product_to_cart_by_index_outcome :
  drv_count (Css "[data-test^='add-to-cart']") p = Ok n ->
  InventoryPageIndex.add_product_to_cart_by_index self index p
  = by_index_outcome self p n index "[data-test^='add-to-cart']" "Product".
Proof.
  intros Hcount.
  unfold InventoryPageIndex.add_product_to_cart_by_index, by_index_outcome, bind,
    query, locator_all, raise, InventoryPageIndex.ADD_TO_CART_BTN.
  rewrite Hcount. cbn [rbind]. rewrite length_map, length_seq, py_index_locators.
  destruct (Z.ltb_spec index (Z.of_nat n)), (Z.leb_spec (Z.of_nat n) index);
    try lia; [|reflexivity].
  destruct (Z.ltb_spec index 0), (Z.leb_spec 0 index); try lia.
  - destruct (- Z.of_nat n <=? index)%Z; reflexivity.
  - reflexivity.
Qed.

End ByIndex.

Lemma by_index_outcome_cases
    {Page : Type} {D : Driver Page} (self : PageObject) (p : Page) (n : nat)
    (index : Z) (selector kind : string) :
  ((Z.of_nat n <= index)%Z ->
   by_index_outcome self p n index selector kind
   = (Err (Exn IndexError
             (kind +:+ " index " +:+ PyStr.str_of_int index +:+ " out of range")), p))
  /\ ((0 <= index < Z.of_nat n)%Z ->
      by_index_outcome self p n index selector kind
      = bind (drv_click (Nth (Css selector) (Z.to_nat index))) (fun _ => ret self) p)
  /\ ((- Z.of_nat n <= index < 0)%Z ->
      by_index_outcome self p n index selector kind
      = bind (drv_click (Nth (Css selector) (Z.to_nat (Z.of_nat n + index))))
          (fun _ => ret self) p)
  /\ ((index < - Z.of_nat n)%Z ->
      by_index_outcome self p n index selector kind
      = (Err (Exn IndexError "list index out of range"), p)).
Proof.
  unfold by_index_outcome.
  destruct (Z.leb_spec (Z.of_nat n) index), (Z.leb_spec 0 index),
    (Z.leb_spec (- Z.of_nat n) index);
    repeat split; intros; try lia; reflexivity.
Qed.

(** X4. [remove_item_by_index] with [n] remove buttons on the page: an
    index of [n] or more raises the IndexError "Item index ... out of
    range" and clicks nothing; an index from 0 to [n - 1] clicks that
    button; a negative index down to [-n] is not rejected and clicks the
    button counted from the end; a smaller one raises the list's own
    IndexError. *)
Theorem X4_remove_item_by_index_bounds
    {Page : Type} {D : Driver Page} (self : PageObject) (p : Page) (n : nat)
    (index : Z)
    (Hcount : drv_count (Css "[data-test^='remove']") p = Ok n) :
  ((Z.of_nat n <= index)%Z ->
   CartPage.remove_item_by_index self index p
   = (Err (Exn IndexError
             ("Item index " +:+ PyStr.str_of_int index +:+ " out of range")), p))
  /\ ((0 <= index < Z.of_nat n)%Z ->
      CartPage.remove_item_by_index self index p
      = bind (drv_click (Nth (Css "[data-test^='remove']") (Z.to_nat index)))
          (fun _ => ret self) p)
  /\ ((- Z.of_nat n <= index < 0)%Z ->
      CartPage.remove_item_by_index self index p
      = bind (drv_click (Nth (Css "[data-test^='remove']")
                           (Z.to_nat (Z.of_nat n + index))))
          (fun _ => ret self) p)
  /\ ((index < - Z.of_nat n)%Z ->
      CartPage.remove_item_by_index self index p
      = (Err (Exn IndexError "list index out of range"), p)).
Proof.
  rewrite (remove_item_by_index_outcome self p n index Hcount).
  apply by_index_outcome_cases.
Qed.

Lemma X4_remove_item_by_index_bounds_witness :
  CartPage.remove_item_by_index Sim.self0 (-1) Sim.cart2
  = (Ok Sim.self0,
     Sim.cart_of [(1, "Sauce Labs Backpack", "sauce-labs-backpack")]%nat)
  /\ fst (CartPage.remove_item_by_index Sim.self0 2 Sim.cart2)
     = Err (Exn IndexError "Item index 2 out of range")
  /\ fst (CartPage.remove_item_by_index Sim.self0 (-3) Sim.cart2)
     = Err (Exn IndexError "list index out of range").
Proof.
  pose proof (X4_remove_item_by_index_bounds Sim.self0 Sim.cart2 2 (-1) eq_refl)
    as (_ & _ & Hlast & _).
  pose proof (X4_remove_item_by_index_bounds Sim.self0 Sim.cart2 2 2 eq_refl)
    as (Hhigh & _).
  pose proof (X4_remove_item_by_index_bounds Sim.self0 Sim.cart2 2 (-3) eq_refl)
    as (_ & _ & _ & Hlow).
  split; [rewrite Hlast by lia; reflexivity|].
  split; [rewrite Hhigh by lia; reflexivity|].
  rewrite Hlow by lia. reflexivity.
Defined.

(** X5. [add_product_to_cart_by_index] with [n] add-to-cart buttons on the
    page: an index of [n] or more raises the IndexError "Product index ...
    out of range" and clicks nothing; an index from 0 to [n - 1] clicks
    that button; a negative index down to [-n] is not rejected and clicks
    the button counted from the end; a smaller one raises the list's own
    IndexError. *)
Theorem X5_add_product_to_cart_by_index_bounds
    {Page : Type} {D : Driver Page} (self : PageObject) (p : Page) (n : nat)
    (index : Z)
    (Hcount : drv_count (Css "[data-test^='add-to-cart']") p = Ok n) :
  ((Z.of_nat n <= index)%Z ->
   InventoryPageIndex.add_product_to_cart_by_index self index p
   = (Err (Exn IndexError
             ("Product index " +:+ PyStr.str_of_int index +:+ " out of range")), p))
  /\ ((0 <= index < Z.of_nat n)%Z ->
      InventoryPageIndex.add_product_to_cart_by_index self index p
      = bind (drv_click (Nth (Css "[data-test^='add-to-cart']") (Z.to_nat index)))
          (fun _ => ret self) p)
  /\ ((- Z.of_nat n <= index < 0)%Z ->
      InventoryPageIndex.add_product_to_cart_by_index self index p
      = bind (drv_click (Nth (Css "[data-test^='add-to-cart']")
                           (Z.to_nat (Z.of_nat n + index))))
          (fun _ => ret self) p)
  /\ ((index < - Z.of_nat n)%Z ->
      InventoryPageIndex.add_product_to_cart_by_index self index p
      = (Err (Exn IndexError "list index out of range"), p)).
Proof.
  rewrite (add_product_to_cart_by_index_outcome self p n index Hcount).
  apply by_index_outcome_cases.
Qed.

Lemma X5_add_product_to_cart_by_index_bounds_witness :
  InventoryPageIndex.add_product_to_cart_by_index Sim.self0 (-1) Pages.two_buttons
  = (Ok Sim.self0, Sim.static_page [Pages.add_button 1 "sauce-labs-backpack"])
  /\ fst (InventoryPageIndex.add_product_to_cart_by_index Sim.self0 2 Pages.two_buttons)
     = Err (Exn IndexError "Product index 2 out of range")
  /\ fst (InventoryPageIndex.add_product_to_cart_by_index Sim.self0 (-3)
            Pages.two_buttons)
     = Err (Exn IndexError "list index out of range").
Proof.
  pose proof (X5_add_product_to_cart_by_index_bounds Sim.self0 Pages.two_buttons
                2 (-1) eq_refl) as (_ & _ & Hlast & _).
  pose proof (X5_add_product_to_cart_by_index_bounds Sim.self0 Pages.two_buttons
                2 2 eq_refl) as (Hhigh & _).
  pose proof (X5_add_product_to_cart_by_index_bounds Sim.self0 Pages.two_buttons
                2 (-3) eq_refl) as (_ & _ & _ & Hlow).
  split; [rewrite Hlast by lia; reflexivity|].
  split; [rewrite Hhigh by lia; reflexivity|].
  rewrite Hlow by lia. reflexivity.
Defined.

(** ** The loop of [remove_all_items] *)

(** X6. [remove_all_items] leaves a cart without items as it is; when items
    are listed but no remove button matches, it raises the IndexError
    "Item index 0 out of range" at once; a failure of the count or of a
    removal ends the loop with that failure. *)
Theorem X6_remove_all_items_stops
    {Page : Type} {D : Driver Page} (self : PageObject) (p : Page) (fuel : nat) :
  (CartPage.get_cart_items_count self p = Ok 0 ->
   CartPage.remove_all_items (S fuel) self p = Some (Ok self, p))
  /\ (forall m,
        CartPage.get_cart_items_count self p = Ok (S m) ->
        drv_count (Css "[data-test^='remove']") p = Ok 0 ->
        CartPage.remove_all_items (S fuel) self p
        = Some (Err (Exn IndexError "Item index 0 out of range"), p))
  /\ (forall e,
        CartPage.get_cart_items_count self p = Err e ->
        CartPage.remove_all_items (S fuel) self p = Some (Err e, p))
  /\ (forall m e p',
        CartPage.get_cart_items_count self p = Ok (S m) ->
        CartPage.remove_item_by_index self 0 p = (Err e, p') ->
        CartPage.remove_all_items (S fuel) self p = Some (Err e, p')).
Proof.
  cbn [CartPage.remove_all_items]. repeat split.
  - intros ->. reflexivity.
  - intros m -> Hnone. cbn [Nat.ltb Nat.leb].
    rewrite (remove_item_by_index_none self p Hnone). reflexivity.
  - intros e ->. reflexivity.
  - intros m e p' -> ->. reflexivity.
Qed.

Lemma X6_remove_all_items_stops_witness :
  CartPage.remove_all_items 1 Sim.self0 Sim.empty_page
  = Some (Ok Sim.self0, Sim.empty_page)
  /\ CartPage.remove_all_items 5 Sim.self0 Pages.cart_without_buttons
     = Some (Err (Exn IndexError "Item index 0 out of range"),
             Pages.cart_without_buttons).
Proof.
  split.
  - apply (proj1 (X6_remove_all_items_stops Sim.self0 Sim.empty_page 0)).
    reflexivity.
  - apply (proj1 (proj2 (X6_remove_all_items_stops Sim.self0
                           Pages.cart_without_buttons 4)) 0); reflexivity.
Defined.

(** X7. When a removal succeeds but leaves the page as it was, with items
    still listed, [remove_all_items] never returns: the loop runs out of
    every amount of fuel. *)
Theorem X7_remove_all_items_diverges
    {Page : Type} {D : Driver Page} (self : PageObject) (p : Page) (m : nat)
    (Hcount : CartPage.get_cart_items_count self p = Ok (S m))
    (Hstuck : CartPage.remove_item_by_index self 0 p = (Ok self, p)) :
  forall fuel, CartPage.remove_all_items fuel self p = None.
Proof.
  induction fuel as [|fuel IH]; [reflexivity|].
  cbn [CartPage.remove_all_items]. rewrite Hcount, Hstuck. exact IH.
Qed.

Lemma X7_remove_all_items_diverges_witness :
  CartPage.remove_all_items 1000 Sim.self0 Pages.stuck_cart = None.
Proof.
  apply (X7_remove_all_items_diverges Sim.self0 Pages.stuck_cart 0); reflexivity.
Defined.

(** ** Names and prices read from the page *)

Lemma rmap_list_map {A B C : Type} (g : A -> B) (f : B -> result C) (l : list A) :
  rmap_list f (map g l) = rmap_list (fun a => f (g a)) l.
Proof.
  induction l as [|a l IH]; [reflexivity|]. cbn [map rmap_list]. rewrite IH.
  reflexivity.
Qed.

Lemma rmap_list_ext_in {A B : Type} (f g : A -> result B) (l : list A) :
  (forall a, In a l -> f a = g a) -> rmap_list f l = rmap_list g l.
Proof.
  induction l as [|a l IH]; [reflexivity|]. intros H. cbn [rmap_list].
  rewrite (H a (or_introl eq_refl)), IH; [reflexivity|].
  intros b Hb. apply H. right. exact Hb.
Qed.

Lemma rmap_list_ok {A B : Type} (h : A -> B) (l : list A) :
  rmap_list (fun a => Ok (h a)) l = Ok (map h l).
Proof.
  induction l as [|a l IH]; [reflexivity|]. cbn [rmap_list map rbind].
  rewrite IH. reflexivity.
Qed.

Lemma rmap_list_length {A B : Type} (f : A -> result B) (l : list A) (bs : list B) :
  rmap_list f l = Ok bs -> List.length bs = List.length l.
Proof.
  revert bs. induction l as [|a l IH]; intros bs.
  - intros [= <-]. reflexivity.
  - cbn [rmap_list]. destruct (f a) as [b|e]; [|discriminate]. cbn [rbind].
    destruct (rmap_list f l) as [bs'|e]; [|discriminate]. cbn [rbind].
    intros [= <-]. cbn [List.length]. rewrite (IH bs' eq_refl). reflexivity.
Qed.

Lemma rmap_list_lookup {A B : Type} (f : A -> result B) (l : list A) (bs : list B) :
  rmap_list f l = Ok bs ->
  forall i a, nth_error l i = Some a ->
              exists b, f a = Ok b /\ nth_error bs i = Some b.
Proof.
  revert bs. induction l as [|a l IH]; intros bs Hmap i x Hi.
  - destruct i; discriminate.
  - cbn [rmap_list] in Hmap. destruct (f a) as [b|e] eqn:Hfa; [|discriminate].
    cbn [rbind] in Hmap.
    destruct (rmap_list f l) as [bs'|e]; [|discriminate]. cbn [rbind] in Hmap.
    injection Hmap as <-. destruct i as [|i].
    + injection Hi as <-. exists b. split; [exact Hfa|reflexivity].
    + apply (IH bs' eq_refl i x Hi).
Qed.

(** The first element on which [f] fails decides the failure. *)
Lemma rmap_list_first_error {A B : Type} (f : A -> result B)
    (before after : list A) (a : A) (e : exn) :
  (forall x, In x before -> exists b, f x = Ok b) ->
  f a = Err e ->
  rmap_list f (before ++ a :: after) = Err e.
Proof.
  intros Hbefore Ha. induction before as [|x before IH].
  - cbn [app rmap_list]. rewrite Ha. reflexivity.
  - cbn [app rmap_list].
    destruct (Hbefore x (or_introl eq_refl)) as [b ->]. cbn [rbind].
    rewrite IH; [reflexivity|]. intros y Hy. apply Hbefore. right. exact Hy.
Qed.

Lemma seq_split_at (n i : nat) :
  i < n -> seq 0 n = seq 0 i ++ i :: seq (S i) (n - S i).
Proof.
  intros Hi. replace n with (i + (S (n - S i))) at 1 by lia.
  rewrite seq_app. reflexivity.
Qed.

(** X8. [get_product_names] returns one name per element that matches the
    name selector, in document order, with the empty string for an element
    whose text is missing or empty; its result has as many entries as
    elements were counted, and when reading a text fails the first failure
    is the result. *)
Theorem X8_get_product_names
    {Page : Type} {D : Driver Page} (self : PageObject) (p : Page) (n : nat)
    (Hcount : drv_count (Css ".inventory_item_name") p = Ok n) :
  (forall texts : nat -> option string,
     (forall i, i < n ->
        drv_text_content (Nth (Css ".inventory_item_name") i) p = Ok (texts i)) ->
     InventoryPage.get_product_names self p
     = Ok (map (fun i => match texts i with
                         | Some (String c t) => String c t
                         | _ => EmptyString
                         end) (seq 0 n)))
  /\ (forall names, InventoryPage.get_product_names self p = Ok names ->
                    List.length names = n)
  /\ (forall i e,
        i < n ->
        (forall j, j < i ->
           exists t, drv_text_content (Nth (Css ".inventory_item_name") j) p = Ok t) ->
        drv_text_content (Nth (Css ".inventory_item_name") i) p = Err e ->
        InventoryPage.get_product_names self p = Err e).
Proof.
  unfold InventoryPage.get_product_names, locator_all,
    InventoryPage.locators.ITEM_NAME.
  rewrite Hcount. cbn [rbind]. rewrite rmap_list_map. repeat split.
  - intros texts Htexts.
    rewrite (rmap_list_ext_in _
               (fun i => Ok (match texts i with
                             | Some (String c t) => String c t
                             | _ => EmptyString
                             end))).
    + apply rmap_list_ok.
    + intros i Hi. apply in_seq in Hi. rewrite Htexts by lia. reflexivity.
  - intros names Hnames. apply rmap_list_length in Hnames.
    rewrite length_seq in Hnames. exact Hnames.
  - intros i e Hi Hbefore Herr. rewrite (seq_split_at n i Hi).
    apply rmap_list_first_error.
    + intros j Hj. apply in_seq in Hj. destruct (Hbefore j ltac:(lia)) as [t ->].
      eexists. reflexivity.
    + rewrite Herr. reflexivity.
Qed.

Lemma X8_get_product_names_witness :
  InventoryPage.get_product_names Sim.self0 Sim.shop
  = Ok ["Sauce Labs Bike Light"; "Sauce Labs Backpack"; "Sauce Labs Onesie"].
Proof.
  refine (proj1 (X8_get_product_names Sim.self0 Sim.shop 3 eq_refl)
            (fun i => nth i [Some "Sauce Labs Bike Light"; Some "Sauce Labs Backpack";
                             Some "Sauce Labs Onesie"] None) _).
  intros i Hi. do 3 (destruct i as [|i]; [reflexivity|]). lia.
Defined.

Lemma extract_price_error_kind {F : PyFloat} (s : string) (e : exn) :
  helpers.extract_price s = Err e -> exn_kind e = ValueError.
Proof.
  unfold helpers.extract_price, helpers.py_float.
  destruct (helpers.re_search s) as [run|].
  - destruct (helpers.float_parse run) as [[m k]|]; [discriminate|].
    intros [= <-]. reflexivity.
  - intros [= <-]. reflexivity.
Qed.

(** X9. [get_product_prices] reads one price per element that matches the
    price selector, in document order.  An element without text, or with an
    empty text, is priced 0 and is no error; an element whose text has no
    number makes the whole call raise ValueError.  The cart page and the
    overview page read their names and prices the same way. *)
Theorem X9_get_product_prices
    {Page : Type} {D : Driver Page} {F : PyFloat}
    (self : PageObject) (p : Page) (n : nat) (texts : nat -> option string)
    (Hcount : drv_count (Css ".inventory_item_price") p = Ok n)
    (Htexts : forall i, i < n ->
       drv_text_content (Nth (Css ".inventory_item_price") i) p = Ok (texts i)) :
  InventoryPage.get_product_prices self p
  = rmap_list (fun i => helpers.extract_price (py_or (texts i) "0")) (seq 0 n)
  /\ (forall prices i,
        InventoryPage.get_product_prices self p = Ok prices ->
        i < n ->
        texts i = None \/ texts i = Some EmptyString ->
        nth_error prices i = Some (float_of_decimal 0%Z 0))
  /\ (forall prices,
        InventoryPage.get_product_prices self p = Ok prices -> List.length prices = n)
  /\ (forall i,
        i < n ->
        (forall v, helpers.extract_price (py_or (texts i) "0") <> Ok v) ->
        raises ValueError (InventoryPage.get_product_prices self p))
  /\ CartPageItems.get_cart_item_prices self p = InventoryPage.get_product_prices self p
  /\ CheckoutStepTwoItems.get_item_prices self p
     = InventoryPage.get_product_prices self p
  /\ CartPageItems.get_cart_item_names self p = InventoryPage.get_product_names self p
  /\ CheckoutStepTwoItems.get_item_names self p = InventoryPage.get_product_names self p.
Proof.
  assert (Heq : InventoryPage.get_product_prices self p
    = rmap_list (fun i => helpers.extract_price (py_or (texts i) "0")) (seq 0 n)).
  { unfold InventoryPage.get_product_prices, locator_all,
      InventoryPage.locators.ITEM_PRICE.
    rewrite Hcount. cbn [rbind]. rewrite rmap_list_map.
    apply rmap_list_ext_in. intros i Hi. apply in_seq in Hi.
    rewrite Htexts by lia. reflexivity. }
  split; [exact Heq|].
  split; [|split; [|split; [|repeat split; reflexivity]]]; rewrite Heq.
  - intros prices i Hprices Hi Hempty.
    destruct (rmap_list_lookup _ _ _ Hprices i i) as (v & Hv & Hnth).
    { rewrite nth_error_seq. destruct (Nat.ltb_spec i n); [reflexivity|lia]. }
    rewrite Hnth. f_equal.
    assert (Hzero : @helpers.extract_price F "0" = Ok (float_of_decimal 0%Z 0))
      by reflexivity.
    destruct Hempty as [Hnone | Hnone]; rewrite Hnone in Hv;
      cbn [py_or] in Hv; rewrite Hzero in Hv; congruence.
  - intros prices Hprices. apply rmap_list_length in Hprices.
    rewrite length_seq in Hprices. exact Hprices.
  - intros i Hi Hfail.
    destruct (rmap_list (fun i0 => helpers.extract_price (py_or (texts i0) "0"))
                (seq 0 n)) as [prices|e] eqn:Hres.
    + destruct (rmap_list_lookup _ _ _ Hres i i) as (v & Hv & _).
      { rewrite nth_error_seq. destruct (Nat.ltb_spec i n); [reflexivity|lia]. }
      exfalso. apply (Hfail v Hv).
    + clear Heq Hfail Hi i. revert e Hres.
      induction (seq 0 n) as [|j l IH]; intros e; [discriminate|].
      cbn [rmap_list].
      destruct (helpers.extract_price (py_or (texts j) "0")) as [v|e'] eqn:Hj.
      * cbn [rbind]. destruct (rmap_list _ l) as [vs|e'']; [discriminate|].
        cbn [rbind]. intros [= <-]. apply (IH e'' eq_refl).
      * cbn [rbind]. intros [= <-]. exists (exn_msg e').
        apply extract_price_error_kind in Hj. destruct e' as [k msg].
        cbn in Hj |- *. subst k. reflexivity.
Qed.

Lemma X9_get_product_prices_witness :
  InventoryPage.get_product_prices Sim.self0 Pages.unpriced
  = Ok [0%Z; 2999%Z]
  /\ raises ValueError (InventoryPage.get_product_prices Sim.self0 Pages.free_item).
Proof.
  pose proof (X9_get_product_prices (F := Sim.cents) Sim.self0 Pages.unpriced 2
                (fun i => nth i [Some EmptyString; Some "$29.99"] None) eq_refl)
    as Hunpriced.
  pose proof (X9_get_product_prices (F := Sim.cents) Sim.self0 Pages.free_item 1
                (fun i => nth i [Some "free"] None) eq_refl)
    as Hfree.
  split.
  - rewrite (proj1 (Hunpriced
      ltac:(intros i Hi; do 2 (destruct i as [|i]; [reflexivity|]); lia))).
    reflexivity.
  - apply (proj1 (proj2 (proj2 (proj2 (Hfree
      ltac:(intros i Hi; destruct i as [|i]; [reflexivity|lia]))))) 0);
      [lia|discriminate].
Defined.

(** ** Sort assertions on few or equal products *)

Lemma names_of_empty_page
    {Page : Type} {D : Driver Page} (self : PageObject) (p : Page) :
  drv_count (Css ".inventory_item_name") p = Ok 0 ->
  InventoryPage.get_product_names self p = Ok [].
Proof.
  intros Hcount.
  unfold InventoryPage.get_product_names, locator_all, InventoryPage.locators.ITEM_NAME.
  rewrite Hcount. reflexivity.
Qed.

Lemma prices_of_empty_page
    {Page : Type} {D : Driver Page} {F : PyFloat} (self : PageObject) (p : Page) :
  drv_count (Css ".inventory_item_price") p = Ok 0 ->
  InventoryPage.get_product_prices self p = Ok [].
Proof.
  intros Hcount.
  unfold InventoryPage.get_product_prices, locator_all,
    InventoryPage.locators.ITEM_PRICE.
  rewrite Hcount. reflexivity.
Qed.

(** X10. On a page that shows no product all four sort assertions pass,
    and with a single product the two name assertions pass: the
    assertions do not notice an empty listing. *)
Theorem X10_sort_assertions_pass_on_empty_listing
    {Page : Type} {D : Driver Page} {F : PyFloat} (self : PageObject) (p : Page) :
  (drv_count (Css ".inventory_item_name") p = Ok 0 ->
   InventoryPage.expect_products_sorted_by_name_asc self p = Ok tt
   /\ InventoryPage.expect_products_sorted_by_name_desc self p = Ok tt)
  /\ (drv_count (Css ".inventory_item_price") p = Ok 0 ->
      InventoryPage.expect_products_sorted_by_price_asc self p = Ok tt
      /\ InventoryPage.expect_products_sorted_by_price_desc self p = Ok tt)
  /\ (forall name,
        InventoryPage.get_product_names self p = Ok [name] ->
        InventoryPage.expect_products_sorted_by_name_asc self p = Ok tt
        /\ InventoryPage.expect_products_sorted_by_name_desc self p = Ok tt).
Proof.
  unfold InventoryPage.expect_products_sorted_by_name_asc,
    InventoryPage.expect_products_sorted_by_name_desc,
    InventoryPage.expect_products_sorted_by_price_asc,
    InventoryPage.expect_products_sorted_by_price_desc.
  split; [|split].
  - intros H. rewrite (names_of_empty_page self p H). split; reflexivity.
  - intros H. rewrite (prices_of_empty_page self p H). split; reflexivity.
  - intros name ->. cbn [rbind sorted sorted_reverse rev app insert_sorted list_eqb].
    rewrite String.eqb_refl. split; reflexivity.
Qed.

Lemma X10_sort_assertions_pass_on_empty_listing_witness :
  InventoryPage.expect_products_sorted_by_name_asc Sim.self0 Sim.empty_page = Ok tt
  /\ InventoryPage.expect_products_sorted_by_price_desc Sim.self0 Sim.empty_page = Ok tt.
Proof.
  pose proof (X10_sort_assertions_pass_on_empty_listing (F := Sim.cents)
                Sim.self0 Sim.empty_page) as (Hnames & Hprices & _).
  split; [apply Hnames|apply Hprices]; reflexivity.
Defined.

Section BothOrders.
Context {A : Type} (ltb : A -> A -> bool).
Hypothesis ltb_irrefl : forall x, ltb x x = false.
Hypothesis ltb_trans :
  forall x y z, ltb x y = true -> ltb y z = true -> ltb x z = true.
Hypothesis ltb_total : forall x y, ltb x y = true \/ x = y \/ ltb y x = true.

Lemma ascending_and_descending (l : list A) :
  Sorted (not_after ltb) l /\ Sorted (flip (not_after ltb)) l
  <-> (forall x y, In x l -> In y l -> x = y).
Proof.
  pose proof (not_after_trans ltb ltb_trans ltb_total) as Htrans.
  pose proof (not_after_antisym ltb ltb_total) as Hanti.
  assert (Hflip : Transitive (flip (not_after ltb))).
  { intros x y z Hxy Hyz. unfold flip in *. apply (Htrans z y x); assumption. }
  split.
  - intros [Hup Hdown].
    apply Sorted_StronglySorted in Hup; [|exact Htrans].
    apply Sorted_StronglySorted in Hdown; [|exact Hflip].
    assert (Hhead : forall a l', StronglySorted (not_after ltb) (a :: l') ->
                                 StronglySorted (flip (not_after ltb)) (a :: l') ->
                                 forall x, In x l' -> x = a).
    { intros a l' Hu Hd x Hx. apply StronglySorted_inv in Hu as [_ Hu].
      apply StronglySorted_inv in Hd as [_ Hd].
      rewrite List.Forall_forall in Hu, Hd.
      symmetry. apply Hanti; [apply Hu|apply Hd]; exact Hx. }
    destruct l as [|a l]; [intros x y []|].
    intros x y Hx Hy.
    assert (Hall : forall z, In z (a :: l) -> z = a).
    { intros z [<-|Hz]; [reflexivity|]. apply (Hhead a l Hup Hdown z Hz). }
    rewrite (Hall x Hx), (Hall y Hy). reflexivity.
  - intros Hall.
    assert (Hrefl : forall x, not_after ltb x x) by (intros x; apply ltb_irrefl).
    split; induction l as [|a l IH]; try constructor.
    + apply IH. intros x y Hx Hy. apply Hall; right; assumption.
    + destruct l as [|b l]; constructor.
      rewrite (Hall a b); [apply Hrefl|left; reflexivity|right; left; reflexivity].
    + apply IH. intros x y Hx Hy. apply Hall; right; assumption.
    + destruct l as [|b l]; constructor. unfold flip.
      rewrite (Hall a b); [apply Hrefl|left; reflexivity|right; left; reflexivity].
Qed.

End BothOrders.

(** X11. The A-Z and the Z-A assertion both pass on the same page exactly
    when all displayed names are equal; likewise the two price assertions
    pass together exactly when all displayed prices are equal. *)
Theorem X11_both_sort_assertions
    {Page : Type} {D : Driver Page} {F : PyFloat} (HF : FloatOrder F)
    (self : PageObject) (p : Page) (names : list string) (prices : list float)
    (Hnames : InventoryPage.get_product_names self p = Ok names)
    (Hprices : InventoryPage.get_product_prices self p = Ok prices) :
  (InventoryPage.expect_products_sorted_by_name_asc self p = Ok tt
   /\ InventoryPage.expect_products_sorted_by_name_desc self p = Ok tt
   <-> (forall x y, In x names -> In y names -> x = y))
  /\ (InventoryPage.expect_products_sorted_by_price_asc self p = Ok tt
      /\ InventoryPage.expect_products_sorted_by_price_desc self p = Ok tt
      <-> (forall x y, In x prices -> In y prices -> x = y)).
Proof.
  pose proof (float_ltb_irrefl F HF) as Fi.
  pose proof (float_ltb_trans F HF) as Ft.
  pose proof (float_ltb_total F HF) as Fo.
  split.
  - rewrite (name_asc_check self p names Hnames),
      (name_desc_check self p names Hnames).
    rewrite (sorted_check_iff String.ltb string_ltb_irrefl string_ltb_trans),
      (sorted_reverse_check_iff String.ltb string_ltb_irrefl string_ltb_trans).
    apply ascending_and_descending;
      [apply string_ltb_irrefl|apply string_ltb_trans|apply string_ltb_total].
  - rewrite (price_asc_check HF self p prices Hprices),
      (price_desc_check HF self p prices Hprices).
    rewrite (sorted_check_iff float_ltb Fi Ft),
      (sorted_reverse_check_iff float_ltb Fi Ft).
    apply ascending_and_descending; assumption.
Qed.

Lemma X11_both_sort_assertions_witness :
  (InventoryPage.expect_products_sorted_by_name_asc Sim.self0 Pages.twins = Ok tt
   /\ InventoryPage.expect_products_sorted_by_name_desc Sim.self0 Pages.twins = Ok tt)
  /\ ~ (InventoryPage.expect_products_sorted_by_name_asc Sim.self0 Sim.shop = Ok tt
        /\ InventoryPage.expect_products_sorted_by_name_desc Sim.self0 Sim.shop
           = Ok tt).
Proof.
  assert (Htwins : InventoryPage.get_product_names Sim.self0 Pages.twins
                   = Ok ["Sauce Labs Onesie"; "Sauce Labs Onesie"]) by reflexivity.
  assert (Htwins' : InventoryPage.get_product_prices Sim.self0 Pages.twins
                    = Ok [799; 799]%Z) by reflexivity.
  assert (Hshop : InventoryPage.get_product_names Sim.self0 Sim.shop
                  = Ok ["Sauce Labs Bike Light"; "Sauce Labs Backpack";
                        "Sauce Labs Onesie"]) by reflexivity.
  assert (Hshop' : InventoryPage.get_product_prices Sim.self0 Sim.shop
                   = Ok [999; 2999; 799]%Z) by reflexivity.
  split.
  - apply (proj2 (proj1 (X11_both_sort_assertions cents_order Sim.self0 Pages.twins
                           _ _ Htwins Htwins'))).
    intros x y [<- | [<- | []]] [<- | [<- | []]]; reflexivity.
  - intros Hboth.
    pose proof (proj1 (proj1 (X11_both_sort_assertions cents_order Sim.self0
                                Sim.shop _ _ Hshop Hshop')) Hboth
                  "Sauce Labs Bike Light" "Sauce Labs Backpack") as Hsame.
    discriminate Hsame; cbn; auto.
Defined.

(** ** What [extract_price] reads *)

Lemma re_search_skip (before s : string) :
  Spec.all_chars (fun c => negb (Spec.price_char c)) before = true ->
  helpers.re_search (before +:+ s) = helpers.re_search s.
Proof.
  induction before as [|c before IH]; [reflexivity|].
  cbn [Spec.all_chars]. intros H. apply andb_prop in H as [Hc Hb].
  apply negb_true_iff in Hc.
  rewrite append_cons. cbn [helpers.re_search].
  rewrite in_class_price_char, Hc. apply IH, Hb.
Qed.

Lemma extract_price_skip {F : PyFloat} (before s : string) (v : float) :
  Spec.all_chars (fun c => negb (Spec.price_char c)) before = true ->
  (helpers.extract_price (before +:+ s) = Ok v <-> helpers.extract_price s = Ok v).
Proof.
  intros Hb. unfold helpers.extract_price. rewrite (re_search_skip before s Hb).
  destruct (helpers.re_search s); [reflexivity|]. split; discriminate.
Qed.

Lemma digits_value_nonneg (s : string) (acc : Z) :
  (0 <= acc)%Z -> (0 <= helpers.digits_value s acc)%Z.
Proof.
  revert acc. induction s as [|c s IH]; intros acc Hacc; [exact Hacc|].
  cbn [helpers.digits_value]. apply IH. unfold PyStr.digit_val. lia.
Qed.

Lemma all_digits_price_chars (s : string) :
  helpers.all_digits s = true -> Spec.all_chars Spec.price_char s = true.
Proof.
  induction s as [|c s IH]; [reflexivity|]. cbn [helpers.all_digits Spec.all_chars].
  intros H. apply andb_prop in H as [Hc Hs]. unfold Spec.price_char at 1.
  rewrite Hc, (IH Hs). reflexivity.
Qed.

(** X12. [extract_price] reads the first run of digits and points and
    nothing else: text before the run does not matter, a minus sign
    included, so the result is never negative; and the number ends at the
    first other character, so digits followed by a thousands separator are
    read without what follows it. *)
Theorem X12_extract_price_reads_first_run {F : PyFloat} :
  (forall before s v,
     Spec.all_chars (fun c => negb (Spec.price_char c)) before = true ->
     (helpers.extract_price (before +:+ s) = Ok v <-> helpers.extract_price s = Ok v))
  /\ (forall s v,
        helpers.extract_price ("-" +:+ s) = Ok v <-> helpers.extract_price s = Ok v)
  /\ (forall s v,
        helpers.extract_price s = Ok v ->
        exists m k, (0 <= m)%Z /\ v = float_of_decimal m k)
  /\ (forall digits c rest,
        digits <> EmptyString ->
        helpers.all_digits digits = true ->
        Spec.price_char c = false ->
        helpers.extract_price (digits +:+ String c rest)
        = Ok (float_of_decimal (helpers.digits_value digits 0%Z) 0)).
Proof.
  split; [intros before s v Hb; apply extract_price_skip, Hb|].
  split; [intros s v; apply (extract_price_skip "-"); reflexivity|].
  split.
  - intros s v. unfold helpers.extract_price, helpers.py_float, helpers.float_parse.
    destruct (helpers.re_search s) as [run|]; [|discriminate].
    destruct (helpers.split_point run) as [ip fp].
    destruct (_ && _); [|discriminate].
    intros [= <-]. eexists _, _. split; [|reflexivity].
    apply digits_value_nonneg. lia.
  - intros digits c rest Hne Hd Hc.
    assert (Hrun : helpers.re_search (digits +:+ String c rest) = Some digits).
    { apply re_search_complete. exists EmptyString, (String c rest).
      repeat split; [exact Hne|apply all_digits_price_chars, Hd|exact Hc]. }
    unfold helpers.extract_price, helpers.py_float. rewrite Hrun.
    destruct (float_parse_run digits (all_digits_price_chars digits Hd)) as [Hv _].
    destruct (all_digits_facts digits Hd) as [Hcount Hval].
    rewrite Hv.
    + rewrite Hval, (numeral_scale_digits digits Hd). reflexivity.
    + unfold Spec.valid_decimal_numeral. rewrite Hcount.
      destruct digits; [congruence|cbn; lia].
Qed.

Lemma X12_extract_price_reads_first_run_witness :
  helpers.extract_price (F := Sim.cents) "-5.00" = Ok 500%Z
  /\ helpers.extract_price (F := Sim.cents) "1,234.50" = Ok 100%Z.
Proof.
  destruct (X12_extract_price_reads_first_run (F := Sim.cents))
    as (_ & Hsign & _ & Hcut).
  split.
  - apply (Hsign "5.00"). reflexivity.
  - apply (Hcut "1" ","%char "234.50"); [discriminate|reflexivity|reflexivity].
Defined.

(** ** Failures of the total check *)

(** X13. When the three summary labels can be read, [expect_total_correct]
    ends in one of three ways: it passes, it raises AssertionError, or it
    raises ValueError; and it raises ValueError, not AssertionError, as
    soon as one label holds no number. *)
Theorem X13_expect_total_correct_outcomes
    {Page : Type} {D : Driver Page} {F : PyFloat}
    (self : PageObject) (p : Page) (subtotal tax total : option string)
    (Hsubtotal : drv_text_content (Css ".summary_subtotal_label") p = Ok subtotal)
    (Htax : drv_text_content (Css ".summary_tax_label") p = Ok tax)
    (Htotal : drv_text_content (Css ".summary_total_label") p = Ok total) :
  (CheckoutStepTwoPage.expect_total_correct self p = Ok tt
   \/ raises AssertionError (CheckoutStepTwoPage.expect_total_correct self p)
   \/ raises ValueError (CheckoutStepTwoPage.expect_total_correct self p))
  /\ (raises ValueError (CheckoutStepTwoPage.expect_total_correct self p)
      <-> exists label,
            In label [subtotal; tax; total]
            /\ forall v, helpers.extract_price (py_or label "") <> Ok v).
Proof.
  unfold CheckoutStepTwoPage.expect_total_correct, CheckoutStepTwoPage.get_subtotal,
    CheckoutStepTwoPage.get_tax, CheckoutStepTwoPage.get_total, BasePage.get_text,
    CheckoutStepTwoPage.locators.SUBTOTAL, CheckoutStepTwoPage.locators.TAX,
    CheckoutStepTwoPage.locators.TOTAL.
  rewrite Hsubtotal, Htax, Htotal. cbn [rbind].
  assert (Herr : forall s e, helpers.extract_price s = Err e ->
                             raises ValueError (@Err unit e)).
  { intros s [k msg] He. apply extract_price_error_kind in He. cbn in He.
    subst k. exists msg. reflexivity. }
  destruct (helpers.extract_price (py_or subtotal "")) as [a|e] eqn:Ea; cbn [rbind].
  2:{ split; [right; right; apply (Herr _ _ Ea)|].
      split; [|intros _; apply (Herr _ _ Ea)].
      intros _. exists subtotal. split; [left; reflexivity|congruence]. }
  destruct (helpers.extract_price (py_or tax "")) as [b|e] eqn:Eb; cbn [rbind].
  2:{ split; [right; right; apply (Herr _ _ Eb)|].
      split; [|intros _; apply (Herr _ _ Eb)].
      intros _. exists tax. split; [right; left; reflexivity|congruence]. }
  destruct (helpers.extract_price (py_or total "")) as [c|e] eqn:Ec; cbn [rbind].
  2:{ split; [right; right; apply (Herr _ _ Ec)|].
      split; [|intros _; apply (Herr _ _ Ec)].
      intros _. exists total. split; [right; right; left; reflexivity|congruence]. }
  split.
  - destruct (py_assert_cases (float_eqb c (float_round (float_add a b) 2))
                (CheckoutStepTwoPage.total_message c a b)) as [H|H]; auto.
  - split.
    + intros [msg Hraise]. exfalso.
      destruct (float_eqb c (float_round (float_add a b) 2)); discriminate.
    + intros (label & Hin & Hno). exfalso.
      destruct Hin as [<- | [<- | [<- | []]]]; eapply Hno; eassumption.
Qed.

Lemma X13_expect_total_correct_outcomes_witness :
  raises ValueError
    (CheckoutStepTwoPage.expect_total_correct Sim.self0
       (Sim.overview "Item total: $29.99" "Tax: none" "Total: $29.99")).
Proof.
  pose (page := Sim.overview "Item total: $29.99" "Tax: none" "Total: $29.99").
  assert (H1 : drv_text_content (Css ".summary_subtotal_label") page
               = Ok (Some "Item total: $29.99")) by reflexivity.
  assert (H2 : drv_text_content (Css ".summary_tax_label") page
               = Ok (Some "Tax: none")) by reflexivity.
  assert (H3 : drv_text_content (Css ".summary_total_label") page
               = Ok (Some "Total: $29.99")) by reflexivity.
  apply (proj2 (X13_expect_total_correct_outcomes (F := Sim.cents) Sim.self0
                  page _ _ _ H1 H2 H3)).
  exists (Some "Tax: none"). split; [right; left; reflexivity|discriminate].
Defined.

(** ** Settings read from the environment *)

Lemma lower_char_true_letters (c : ascii) :
  ((PyStr.lower_char c =? "t")%char = ((c =? "t") || (c =? "T"))%char)
  /\ ((PyStr.lower_char c =? "r")%char = ((c =? "r") || (c =? "R"))%char)
  /\ ((PyStr.lower_char c =? "u")%char = ((c =? "u") || (c =? "U"))%char)
  /\ ((PyStr.lower_char c =? "e")%char = ((c =? "e") || (c =? "E"))%char).
Proof. destruct c as [[] [] [] [] [] [] [] []]; repeat split. Qed.

Lemma lower_is_true (v : string) :
  String.eqb (PyStr.lower v) "true" = spells_true v.
Proof.
  destruct v as [|a [|b [|c [|d [|x v]]]]];
    cbn [PyStr.lower String.eqb spells_true];
    try rewrite (proj1 (lower_char_true_letters a));
    try rewrite (proj1 (proj2 (lower_char_true_letters b)));
    try rewrite (proj1 (proj2 (proj2 (lower_char_true_letters c))));
    try rewrite (proj2 (proj2 (proj2 (lower_char_true_letters d))));
    try reflexivity.
  - destruct ((a =? "t") || (a =? "T"))%char; reflexivity.
  - destruct ((a =? "t") || (a =? "T"))%char; [|reflexivity].
    destruct ((b =? "r") || (b =? "R"))%char; reflexivity.
  - destruct ((a =? "t") || (a =? "T"))%char; [|reflexivity].
    destruct ((b =? "r") || (b =? "R"))%char; [|reflexivity].
    destruct ((c =? "u") || (c =? "U"))%char; reflexivity.
  - destruct ((a =? "t") || (a =? "T"))%char; [|reflexivity].
    destruct ((b =? "r") || (b =? "R"))%char; [|reflexivity].
    destruct ((c =? "u") || (c =? "U"))%char; [|reflexivity].
    destruct ((d =? "e") || (d =? "E"))%char; reflexivity.
  - destruct ((a =? "t") || (a =? "T"))%char; [|reflexivity].
    destruct ((b =? "r") || (b =? "R"))%char; [|reflexivity].
    destruct ((c =? "u") || (c =? "U"))%char; [|reflexivity].
    destruct ((d =? "e") || (d =? "E"))%char; reflexivity.
Qed.

Lemma flag_value (env : gmap string string) (key d : string) :
  settings.flag env key d
  = match env !! key with
    | Some v => spells_true v
    | None => spells_true d
    end.
Proof.
  unfold settings.flag, settings.getenv. rewrite lower_is_true.
  destruct (env !! key); reflexivity.
Qed.

(** X14. A flag of the settings is on only for the text "true" in any mix
    of upper and lower case: HEADLESS is on exactly when its variable is
    set to such a text, and SCREENSHOT_ON_FAILURE and VIDEO_ON_FAILURE are
    on exactly when their variable is unset or set to such a text.  Any
    other value, such as "1", "yes" or " true", turns the flag off. *)
Theorem X14_settings_flags
    (env : gmap string string) (st : settings.Settings)
    (Hload : settings.load env = Ok st) :
  (settings.HEADLESS st = true
   <-> exists v, env !! "HEADLESS" = Some v /\ spells_true v = true)
  /\ (settings.SCREENSHOT_ON_FAILURE st = true
      <-> env !! "SCREENSHOT_ON_FAILURE" = None
          \/ exists v, env !! "SCREENSHOT_ON_FAILURE" = Some v /\ spells_true v = true)
  /\ (settings.VIDEO_ON_FAILURE st = true
      <-> env !! "VIDEO_ON_FAILURE" = None
          \/ exists v, env !! "VIDEO_ON_FAILURE" = Some v /\ spells_true v = true)
  /\ (forall v, spells_true v = true
                <-> In v ["true"; "truE"; "trUe"; "trUE"; "tRue"; "tRuE"; "tRUe";
                          "tRUE"; "True"; "TruE"; "TrUe"; "TrUE"; "TRue"; "TRuE";
                          "TRUe"; "TRUE"]).
Proof.
  destruct (load_inv env st Hload) as (slow_mo & tmo & _ & _ & ->).
  cbn [settings.HEADLESS settings.SCREENSHOT_ON_FAILURE settings.VIDEO_ON_FAILURE].
  rewrite !flag_value.
  split; [|split; [|split]].
  - destruct (env !! "HEADLESS") as [v|]; cbn.
    + split; [intros H; exists v; auto|intros (v' & [= <-] & H); exact H].
    + split; [discriminate|intros (v' & [=] & _)].
  - destruct (env !! "SCREENSHOT_ON_FAILURE") as [v|]; cbn.
    + split; [intros H; right; exists v; auto|].
      intros [[=]|(v' & [= <-] & H)]. exact H.
    + split; auto.
  - destruct (env !! "VIDEO_ON_FAILURE") as [v|]; cbn.
    + split; [intros H; right; exists v; auto|].
      intros [[=]|(v' & [= <-] & H)]. exact H.
    + split; auto.
  - intros v. split.
    + destruct v as [|a [|b [|c [|d [|x v]]]]]; try discriminate.
      cbn [spells_true]. intros H.
      apply andb_prop in H as [H Hd]. apply andb_prop in H as [H Hc].
      apply andb_prop in H as [Ha Hb].
      apply orb_prop in Ha, Hb, Hc, Hd.
      destruct Ha as [Ha|Ha], Hb as [Hb|Hb], Hc as [Hc|Hc], Hd as [Hd|Hd];
        apply Ascii.eqb_eq in Ha, Hb, Hc, Hd; subst a b c d; cbn; tauto.
    + intros Hin. repeat (destruct Hin as [<-|Hin]; [reflexivity|]). destruct Hin.
Qed.

Lemma X14_settings_flags_witness :
  exists st,
    settings.load (<["HEADLESS" := "TRUE"]> (<["VIDEO_ON_FAILURE" := "yes"]> ∅)) = Ok st
    /\ settings.HEADLESS st = true
    /\ settings.VIDEO_ON_FAILURE st = false
    /\ settings.SCREENSHOT_ON_FAILURE st = true.
Proof.
  pose (env := <["HEADLESS" := "TRUE"]> (<["VIDEO_ON_FAILURE" := "yes"]> ∅)
               : gmap string string).
  destruct (settings.load env) as [st|e] eqn:Hload; [|vm_compute in Hload; discriminate].
  exists st. split; [exact Hload|].
  destruct (X14_settings_flags env st Hload) as (Hh & Hs & Hv & _).
  split; [apply Hh; exists "TRUE"; split; reflexivity|].
  split.
  - destruct (settings.VIDEO_ON_FAILURE st); [|reflexivity].
    destruct (proj1 Hv eq_refl) as [E|(v & E & Hv')].
    + vm_compute in E. discriminate.
    + vm_compute in E. injection E as <-. discriminate.
  - apply Hs. left. reflexivity.
Defined.

Lemma int_error_kind (s : string) (e : exn) :
  PyStr.int s = Err e -> exn_kind e = ValueError.
Proof.
  unfold PyStr.int. destruct (PyStr.int_parse s); [discriminate|].
  intros [= <-]. reflexivity.
Qed.



(** X16. A variable that is set is used as it stands, also when it is set
    to the empty string: the default applies to an unset variable only.
    So an empty BASE_URL, user name or PASSWORD stays empty, an empty flag
    is off, and an empty SLOW_MO or TIMEOUT makes loading fail. *)
Theorem X16_settings_set_values (env : gmap string string) :
  (forall st v,
     settings.load env = Ok st ->
     (env !! "BASE_URL" = Some v -> settings.BASE_URL st = v)
     /\ (env !! "STANDARD_USER" = Some v -> settings.STANDARD_USER st = v)
     /\ (env !! "LOCKED_OUT_USER" = Some v -> settings.LOCKED_OUT_USER st = v)
     /\ (env !! "PROBLEM_USER" = Some v -> settings.PROBLEM_USER st = v)
     /\ (env !! "PERFORMANCE_USER" = Some v -> settings.PERFORMANCE_USER st = v)
     /\ (env !! "ERROR_USER" = Some v -> settings.ERROR_USER st = v)
     /\ (env !! "VISUAL_USER" = Some v -> settings.VISUAL_USER st = v)
     /\ (env !! "PASSWORD" = Some v -> settings.PASSWORD st = v))
  /\ (forall st,
        settings.load env = Ok st ->
        (env !! "HEADLESS" = Some "" -> settings.HEADLESS st = false)
        /\ (env !! "SCREENSHOT_ON_FAILURE" = Some "" ->
            settings.SCREENSHOT_ON_FAILURE st = false)
        /\ (env !! "VIDEO_ON_FAILURE" = Some "" ->
            settings.VIDEO_ON_FAILURE st = false))
  /\ (env !! "SLOW_MO" = Some "" \/ env !! "TIMEOUT" = Some "" ->
      raises ValueError (settings.load env)).
Proof.
  split; [|split].
  - intros st v Hload. destruct (load_inv env st Hload) as (a & b & _ & _ & ->).
    cbn. unfold settings.getenv. repeat split; intros ->; reflexivity.
  - intros st Hload. destruct (load_inv env st Hload) as (a & b & _ & _ & ->).
    cbn. rewrite !flag_value. repeat split; intros ->; reflexivity.
  - intros Hempty. unfold settings.load, settings.getenv.
    destruct Hempty as [-> | ->].
    + eexists. reflexivity.
    + cbn [default from_option id].
      destruct (PyStr.int (default "100" (env !! "SLOW_MO"))) as [a|[k msg]] eqn:Ea.
      * eexists. reflexivity.
      * apply int_error_kind in Ea. cbn in Ea. subst k. eexists. reflexivity.
Qed.

Lemma X16_settings_set_values_witness :
  (exists st, settings.load (<["BASE_URL" := ""]> ∅) = Ok st
              /\ settings.BASE_URL st = "")
  /\ raises ValueError (settings.load (<["TIMEOUT" := ""]> ∅)).
Proof.
  split.
  - destruct (settings.load (<["BASE_URL" := ""]> ∅)) as [st|e] eqn:Hload;
      [|vm_compute in Hload; discriminate].
    exists st. split; [reflexivity|].
    apply (proj1 (proj1 (X16_settings_set_values (<["BASE_URL" := ""]> ∅)) st ""
                   Hload)).
    reflexivity.
  - apply (proj2 (proj2 (X16_settings_set_values (<["TIMEOUT" := ""]> ∅)))).
    right. reflexivity.
Defined.

(** ** Test data files *)

Lemma endswith_spec (s suffix : string) :
  endswith s suffix = true <-> exists p, s = p +:+ suffix.
Proof.
  induction s as [|c s IH]; cbn [endswith].
  - rewrite orb_false_r, String.eqb_eq. split.
    + intros <-. exists EmptyString. reflexivity.
    + intros [[|a p] Hp]; [exact Hp|]. rewrite append_cons in Hp. discriminate.
  - rewrite orb_true_iff, String.eqb_eq, IH. split.
    + intros [<- | [p ->]]; [exists EmptyString; reflexivity|].
      exists (String c p). rewrite append_cons. reflexivity.
    + intros [[|a p] Hp]; [left; exact Hp|]. right. rewrite append_cons in Hp.
      injection Hp as _ ->. exists p. reflexivity.
Qed.

Lemma endswith_app (s suffix : string) : endswith (s +:+ suffix) suffix = true.
Proof. apply endswith_spec. exists s. reflexivity. Qed.

Lemma append_longer (s suffix : string) :
  suffix <> EmptyString -> s +:+ suffix <> s.
Proof.
  intros Hne Heq. apply (f_equal String.length) in Heq.
  rewrite string_length_app in Heq. destruct suffix; [congruence|].
  cbn [String.length] in Heq. lia.
Qed.

Section Suffix.
Variable ext : string.
Hypothesis ext_ne : ext <> EmptyString.
Variable with_suffix : string -> string.
Hypothesis with_suffix_eq :
  forall filename,
    with_suffix filename
    = if negb (endswith filename ext) then filename +:+ ext else filename.

Lemma with_suffix_ends (filename : string) :
  endswith (with_suffix filename) ext = true.
Proof.
  rewrite with_suffix_eq. destruct (endswith filename ext) eqn:E; cbn [negb].
  - exact E.
  - apply endswith_app.
Qed.

Lemma with_suffix_fixed (filename : string) :
  with_suffix filename = filename <-> endswith filename ext = true.
Proof.
  rewrite with_suffix_eq. destruct (endswith filename ext) eqn:E; cbn [negb].
  - tauto.
  - split; [|discriminate]. intros Heq. destruct (append_longer _ _ ext_ne Heq).
Qed.

End Suffix.

Lemma json_filename_ends (filename : string) :
  endswith (DataLoader.json_filename filename) ".json" = true.
Proof.
  exact (with_suffix_ends ".json" DataLoader.json_filename (fun _ => eq_refl)
           filename).
Qed.

Lemma csv_filename_ends (filename : string) :
  endswith (DataLoader.csv_filename filename) ".csv" = true.
Proof.
  exact (with_suffix_ends ".csv" DataLoader.csv_filename (fun _ => eq_refl)
           filename).
Qed.

Lemma json_filename_fixed (filename : string) :
  DataLoader.json_filename filename = filename
  <-> endswith filename ".json" = true.
Proof.
  apply (with_suffix_fixed ".json"); [discriminate|]. intros f. reflexivity.
Qed.

Lemma csv_filename_fixed (filename : string) :
  DataLoader.csv_filename filename = filename
  <-> endswith filename ".csv" = true.
Proof.
  apply (with_suffix_fixed ".csv"); [discriminate|]. intros f. reflexivity.
Qed.

(** X17. The loaders complete a file name: the name they open always ends
    in the extension, a name that has it is opened as it is, one that lacks
    it (also one that has it in capitals, or has only [json] without the
    dot) gets it appended; completing twice changes nothing, so a name
    loads what its completed form loads. *)
Theorem X17_data_file_names {Row : Type} (dir : DataLoader.DataDir Row)
    (filename : string) :
  endswith (DataLoader.json_filename filename) ".json" = true
  /\ endswith (DataLoader.csv_filename filename) ".csv" = true
  /\ (endswith filename ".json" = true ->
      DataLoader.json_filename filename = filename)
  /\ (endswith filename ".csv" = true ->
      DataLoader.csv_filename filename = filename)
  /\ (endswith filename ".json" = false ->
      DataLoader.json_filename filename = filename +:+ ".json"
      /\ DataLoader.load_json dir (filename +:+ ".json")
         = DataLoader.load_json dir filename)
  /\ (endswith filename ".csv" = false ->
      DataLoader.csv_filename filename = filename +:+ ".csv"
      /\ DataLoader.load_csv dir (filename +:+ ".csv")
         = DataLoader.load_csv dir filename)
  /\ DataLoader.load_json dir (DataLoader.json_filename filename)
     = DataLoader.load_json dir filename
  /\ DataLoader.load_csv dir (DataLoader.csv_filename filename)
     = DataLoader.load_csv dir filename.
Proof.
  split; [apply json_filename_ends|]. split; [apply csv_filename_ends|].
  split; [apply json_filename_fixed|]. split; [apply csv_filename_fixed|].
  assert (Hj : DataLoader.json_filename (DataLoader.json_filename filename)
               = DataLoader.json_filename filename)
    by apply json_filename_fixed, json_filename_ends.
  assert (Hc : DataLoader.csv_filename (DataLoader.csv_filename filename)
               = DataLoader.csv_filename filename)
    by apply csv_filename_fixed, csv_filename_ends.
  split; [|split; [|split]].
  - intros Hno. assert (Hname : DataLoader.json_filename filename
                                = filename +:+ ".json").
    { unfold DataLoader.json_filename. rewrite Hno. reflexivity. }
    split; [exact Hname|]. rewrite <- Hname.
    unfold DataLoader.load_json. rewrite Hj. reflexivity.
  - intros Hno. assert (Hname : DataLoader.csv_filename filename
                                = filename +:+ ".csv").
    { unfold DataLoader.csv_filename. rewrite Hno. reflexivity. }
    split; [exact Hname|]. rewrite <- Hname.
    unfold DataLoader.load_csv. rewrite Hc. reflexivity.
  - unfold DataLoader.load_json. rewrite Hj. reflexivity.
  - unfold DataLoader.load_csv. rewrite Hc. reflexivity.
Qed.

Lemma X17_data_file_names_witness :
  DataLoader.json_filename "users" = "users.json"
  /\ DataLoader.json_filename "users.JSON" = "users.JSON.json"
  /\ DataLoader.json_filename "usersjson" = "usersjson.json"
  /\ DataLoader.json_filename "users.json" = "users.json".
Proof.
  pose (dir := {| DataLoader.file := fun _ => None;
                  DataLoader.json_load := fun _ => None;
                  DataLoader.csv_rows := fun _ => @nil unit |}).
  split; [|split; [|split]].
  - rewrite (proj1 (proj1 (proj2 (proj2 (proj2 (proj2
               (X17_data_file_names dir "users"))))) eq_refl)). reflexivity.
  - rewrite (proj1 (proj1 (proj2 (proj2 (proj2 (proj2
               (X17_data_file_names dir "users.JSON"))))) eq_refl)). reflexivity.
  - rewrite (proj1 (proj1 (proj2 (proj2 (proj2 (proj2
               (X17_data_file_names dir "usersjson"))))) eq_refl)). reflexivity.
  - apply (proj1 (proj2 (proj2 (X17_data_file_names dir "users.json")))).
    reflexivity.
Defined.

(** X18. A loader reads one file only, the one of the completed name: two
    data directories that hold the same text under that name (whatever
    else they hold) and decode alike give the same result; without such a
    file the result is FileNotFoundError, carrying the completed name. *)
Theorem X18_loaders_read_one_file {Row : Type}
    (dir1 dir2 : DataLoader.DataDir Row) (filename : string)
    (Hjson : forall t, DataLoader.json_load dir1 t = DataLoader.json_load dir2 t)
    (Hcsv : forall t, DataLoader.csv_rows dir1 t = DataLoader.csv_rows dir2 t) :
  (DataLoader.file dir1 (DataLoader.json_filename filename)
   = DataLoader.file dir2 (DataLoader.json_filename filename) ->
   DataLoader.load_json dir1 filename = DataLoader.load_json dir2 filename)
  /\ (DataLoader.file dir1 (DataLoader.csv_filename filename)
      = DataLoader.file dir2 (DataLoader.csv_filename filename) ->
      DataLoader.load_csv dir1 filename = DataLoader.load_csv dir2 filename)
  /\ (DataLoader.file dir1 (DataLoader.json_filename filename) = None <->
      DataLoader.load_json dir1 filename
      = inl (DataLoader.FileNotFoundError (DataLoader.json_filename filename)))
  /\ (DataLoader.file dir1 (DataLoader.csv_filename filename) = None <->
      DataLoader.load_csv dir1 filename
      = inl (DataLoader.FileNotFoundError (DataLoader.csv_filename filename)))
  /\ (forall f, DataLoader.load_json dir1 filename
                = inl (DataLoader.FileNotFoundError f) ->
                endswith f ".json" = true)
  /\ (forall f, DataLoader.load_csv dir1 filename
                = inl (DataLoader.FileNotFoundError f) ->
                endswith f ".csv" = true).
Proof.
  split; [|split; [|split; [|split; [|split]]]].
  - intros Hfile. unfold DataLoader.load_json, DataLoader.open.
    rewrite Hfile. destruct (DataLoader.file dir2 _); [|reflexivity].
    rewrite Hjson. reflexivity.
  - intros Hfile. unfold DataLoader.load_csv, DataLoader.open.
    rewrite Hfile. destruct (DataLoader.file dir2 _); [|reflexivity].
    rewrite Hcsv. reflexivity.
  - unfold DataLoader.load_json, DataLoader.open.
    destruct (DataLoader.file dir1 _) as [text|]; [|tauto].
    split; [discriminate|]. destruct (DataLoader.json_load dir1 text); discriminate.
  - unfold DataLoader.load_csv, DataLoader.open.
    destruct (DataLoader.file dir1 _) as [text|]; [|tauto].
    split; discriminate.
  - intros f. unfold DataLoader.load_json, DataLoader.open.
    destruct (DataLoader.file dir1 _) as [text|].
    + destruct (DataLoader.json_load dir1 text); discriminate.
    + intros [= <-]. apply json_filename_ends.
  - intros f. unfold DataLoader.load_csv, DataLoader.open.
    destruct (DataLoader.file dir1 _) as [text|]; [discriminate|].
    intros [= <-]. apply csv_filename_ends.
Qed.

Lemma X18_loaders_read_one_file_witness :
  DataLoader.load_json (Data.directory [("users.json", "{}"); ("users", "[]")])
    "users"
  = DataLoader.load_json (Data.directory [("users.json", "{}")]) "users".
Proof.
  apply (proj1 (X18_loaders_read_one_file
                  (Data.directory [("users.json", "{}"); ("users", "[]")])
                  (Data.directory [("users.json", "{}")]) "users"
                  (fun _ => eq_refl) (fun _ => eq_refl))).
  reflexivity.
Defined.




(** ** The fixtures of src/conftest.py *)

Ltac lookup_inserts :=
  repeat first [rewrite lookup_insert_eq | rewrite lookup_insert_ne by congruence].

(** X20. The browser context is always opened with the viewport 1920 by
    1080, the locale fr-FR and the time zone Europe/Paris: what the
    incoming arguments say under these three keys is discarded, every
    other argument is passed on unchanged, and applying the fixture twice
    is applying it once. *)
Theorem X20_browser_context_args (args : gmap string pyval) :
  conftest.browser_context_args args !! "viewport"
  = Some (PDict (<["height" := PInt 1080]> (<["width" := PInt 1920]> ∅)))
  /\ conftest.browser_context_args args !! "locale" = Some (PStr "fr-FR")
  /\ conftest.browser_context_args args !! "timezone_id"
     = Some (PStr "Europe/Paris")
  /\ (forall key,
        key <> "viewport" -> key <> "locale" -> key <> "timezone_id" ->
        conftest.browser_context_args args !! key = args !! key)
  /\ (forall key v,
        key = "viewport" \/ key = "locale" \/ key = "timezone_id" ->
        conftest.browser_context_args (<[key := v]> args)
        = conftest.browser_context_args args)
  /\ conftest.browser_context_args (conftest.browser_context_args args)
     = conftest.browser_context_args args.
Proof.
  unfold conftest.browser_context_args.
  split; [|split; [|split; [|split; [|split]]]].
  - rewrite lookup_insert_ne by discriminate.
    rewrite lookup_insert_ne by discriminate. apply lookup_insert_eq.
  - rewrite lookup_insert_ne by discriminate. apply lookup_insert_eq.
  - apply lookup_insert_eq.
  - intros key Hv Hl Ht. rewrite !lookup_insert_ne by congruence. reflexivity.
  - intros key v Hkey. apply map_eq. intros k.
    destruct Hkey as [-> | [-> | ->]];
      destruct (decide (k = "timezone_id")) as [Ht | Ht];
      destruct (decide (k = "locale")) as [Hl | Hl];
      destruct (decide (k = "viewport")) as [Hv | Hv];
      try congruence; subst; lookup_inserts; reflexivity.
  - apply map_eq. intros k.
    destruct (decide (k = "timezone_id")) as [Ht | Ht];
      destruct (decide (k = "locale")) as [Hl | Hl];
      destruct (decide (k = "viewport")) as [Hv | Hv];
      try congruence; subst; lookup_inserts; reflexivity.
Qed.

Lemma X20_browser_context_args_witness :
  conftest.browser_context_args
    (<["viewport" := PNone]> (<["base_url" := PStr "http://localhost"]> ∅))
  !! "base_url" = Some (PStr "http://localhost")
  /\ conftest.browser_context_args
       (<["viewport" := PNone]> (<["base_url" := PStr "http://localhost"]> ∅))
     = conftest.browser_context_args (<["base_url" := PStr "http://localhost"]> ∅).
Proof.
  split.
  - rewrite (proj1 (proj2 (proj2 (proj2 (X20_browser_context_args _)))) "base_url")
      by discriminate.
    reflexivity.
  - apply (proj1 (proj2 (proj2 (proj2 (proj2 (X20_browser_context_args _)))))).
    left. reflexivity.
Defined.

(** X21. The browser is launched with the settings' HEADLESS and SLOW_MO,
    whatever the incoming launch arguments say under these keys (so a
    headed or headless request made on the command line is discarded);
    every other argument is passed on.  With the settings loaded from the
    environment, the launch is headless exactly when HEADLESS is set to
    "true" in some mix of case, so headed when it is unset, and slow_mo is
    the number read from SLOW_MO, 100 when it is unset. *)
Theorem X21_browser_type_launch_args
    (env : gmap string string) (st : settings.Settings)
    (args : gmap string pyval)
    (Hload : settings.load env = Ok st) :
  (exists b n,
     conftest.browser_type_launch_args st args !! "headless" = Some (PBool b)
     /\ conftest.browser_type_launch_args st args !! "slow_mo" = Some (PInt n)
     /\ (b = true <-> exists v, env !! "HEADLESS" = Some v /\ spells_true v = true)
     /\ (env !! "SLOW_MO" = None -> n = 100%Z)
     /\ (forall v, env !! "SLOW_MO" = Some v -> PyStr.int v = Ok n))
  /\ (forall key,
        key <> "headless" -> key <> "slow_mo" ->
        conftest.browser_type_launch_args st args !! key = args !! key)
  /\ (forall key v,
        key = "headless" \/ key = "slow_mo" ->
        conftest.browser_type_launch_args st (<[key := v]> args)
        = conftest.browser_type_launch_args st args).
Proof.
  unfold conftest.browser_type_launch_args. split; [|split].
  - exists (settings.HEADLESS st), (settings.SLOW_MO st).
    split; [lookup_inserts; reflexivity|]. split; [lookup_inserts; reflexivity|].
    destruct (load_inv env st Hload) as (slow_mo & tmo & Hslow & _ & ->).
    cbn [settings.HEADLESS settings.SLOW_MO]. rewrite flag_value.
    unfold settings.getenv in Hslow. split; [|split].
    + destruct (env !! "HEADLESS") as [v|]; cbn.
      * split; [intros H; exists v; auto|intros (v' & [= <-] & H); exact H].
      * split; [discriminate|intros (v' & [=] & _)].
    + intros Hnone. rewrite Hnone in Hslow.
      assert (Hdefault : PyStr.int (default "100" None) = Ok 100%Z) by reflexivity.
      rewrite Hdefault in Hslow. injection Hslow as <-. reflexivity.
    + intros v Hv. rewrite Hv in Hslow. exact Hslow.
  - intros key Hh Hs. lookup_inserts. reflexivity.
  - intros key v Hkey. apply map_eq. intros k.
    destruct Hkey as [-> | ->];
      destruct (decide (k = "headless")) as [Hh | Hh];
      destruct (decide (k = "slow_mo")) as [Hs | Hs];
      try congruence; subst; lookup_inserts; reflexivity.
Qed.

Lemma X21_browser_type_launch_args_witness :
  exists st,
    settings.load (<["SLOW_MO" := "0"]> ∅) = Ok st
    /\ conftest.browser_type_launch_args st (<["headless" := PBool true]> ∅)
       = conftest.browser_type_launch_args st ∅.
Proof.
  destruct (settings.load (<["SLOW_MO" := "0"]> ∅)) as [st|e] eqn:Hload;
    [|vm_compute in Hload; discriminate].
  exists st. split; [reflexivity|].
  apply (proj2 (proj2 (X21_browser_type_launch_args
                         (<["SLOW_MO" := "0"]> ∅) st ∅ Hload))).
  left. reflexivity.
Defined.

(** ** The error message of a form *)

(** X22. The assertion that a login (or the first checkout step) failed
    checks the text of the error message only for a non-empty expected
    text: the empty string is falsy, so it asserts what no expected text
    at all asserts, that the message is visible.  With a non-empty text
    the assertion passes exactly when both checks pass, and it fails with
    the visibility check's error whenever that check fails, whatever the
    text check would say. *)
Theorem X22_expect_error_message {Page : Type} {D : Driver Page}
    {E : ExpectDriver Page} (self : PageObject) (p : Page) :
  LoginPage.expect_login_failed self (Some "") p
  = LoginPage.expect_login_failed self None p
  /\ LoginPage.expect_login_failed self None p
     = drv_expect_to_be_visible (Css "[data-test='error']") p
  /\ (forall text,
        text <> "" ->
        (LoginPage.expect_login_failed self (Some text) p = Ok tt
         <-> drv_expect_to_be_visible (Css "[data-test='error']") p = Ok tt
             /\ drv_expect_to_contain_text (Css "[data-test='error']") text p
                = Ok tt))
  /\ (forall expected e,
        drv_expect_to_be_visible (Css "[data-test='error']") p = Err e ->
        LoginPage.expect_login_failed self expected p = Err e)
  /\ (forall expected,
        CheckoutStepOnePage.expect_error_message self expected p
        = LoginPage.expect_login_failed self expected p).
Proof.
  unfold LoginPage.expect_login_failed, CheckoutStepOnePage.expect_error_message.
  change LoginPage.locators.ERROR_MESSAGE with "[data-test='error']".
  change CheckoutStepOnePage.locators.ERROR_MESSAGE with "[data-test='error']".
  split; [reflexivity|]. split; [|split; [|split]].
  - cbn [py_truthy].
    destruct (drv_expect_to_be_visible (Css "[data-test='error']") p) as [[]|e];
      reflexivity.
  - intros text Htext. destruct text as [|c t]; [congruence|]. cbn [py_truthy].
    destruct (drv_expect_to_be_visible (Css "[data-test='error']") p) as [[]|e];
      cbn [rbind].
    + tauto.
    + split; [discriminate|intros [[=] _]].
  - intros expected e ->. reflexivity.
  - reflexivity.
Qed.

Lemma X22_expect_error_message_witness :
  LoginPage.expect_login_failed Sim.self0 (Some "Username is required")
    SimForm.failed_login = Ok tt.
Proof.
  apply (proj1 (proj2 (proj2 (X22_expect_error_message Sim.self0
                                SimForm.failed_login)))).
  - discriminate.
  - split; reflexivity.
Defined.


